(** * hw_python_oop: the fitness-tracker module [homework.py]

    A shallow embedding of [homework.py] and the properties of its
    specification.  Python's [float] is IEEE 754 binary64, which is Rocq's
    primitive [float]: every arithmetic expression of the source is written
    here with the same operators, in the same order, so that a value computed
    below is bit for bit the value CPython computes; the one operation CPython
    leaves to the C library, [pow], is a parameter.  The attributes are floats,
    as the source annotates them, and the integer class constants of the
    source ([18], [20], [60], [1000], [2]) only ever meet floats, where Python
    converts them first: they are the floats of the same value.  Exceptions
    are explicit: a method that can raise returns a [result]. *)

From Stdlib Require Import ZArith Floats String Ascii DecimalString DecimalN List Bool Lia.
From stdpp Require Import base strings gmap.
Import ListNotations.

Open Scope string_scope.

(* Decimal literals such as [0.65] denote the nearest binary64 value, as in
   Python. *)
Set Warnings "-inexact-float".

(** ** Exceptions *)

(** The exceptions this program can raise, and the outcome of a call. *)
Inductive exception : Type :=
| KeyError (msg : string)            (* raised by read_package *)
| TypeError                          (* a constructor called with a wrong number of arguments *)
| ZeroDivisionError                  (* float [/] and [//] by zero *)
| OverflowError                      (* float [**] out of range *)
| NotImplementedError (msg : string) (* raised by Training.get_spent_calories *).

Inductive result (A : Type) : Type :=
| Returns (a : A)
| Raises (e : exception).
Arguments Returns {A} a.
Arguments Raises {A} e.

(** Sequencing: the first exception raised ends the computation (stdpp's
    [x ← r; k] notation). *)
#[export] Instance result_bind : MBind result := fun A B k r =>
  match r with
  | Returns a => k a
  | Raises e => Raises e
  end.

(** ** Python's float operators

    [*], [+] and [-] on floats never raise (an overflow gives an infinity), so
    they are the primitive operations.  The three operators below can raise. *)
Module PyFloat.

Open Scope float_scope.

(** [x / y] (float_div): ZeroDivisionError when [y == 0.0], for either zero. *)
Definition truediv (x y : float) : result float :=
  if y =? 0 then Raises ZeroDivisionError else Returns (x / y).

(** [x ** 2] (float_pow at the exponent 2.0).  CPython settles the special
    cases itself: a NaN is returned as it is, an infinity gives [inf], a zero
    gives [0.0], a negative base is replaced by its absolute value (the
    exponent is an even integer, so the result is not negated) and a base of
    absolute value 1 gives [1.0].  Every other base goes to the C library's
    [pow]; an infinite result is a range error, raised as OverflowError (a
    result that underflows to zero is returned).  [libm_pow] is the C
    library's [pow]. *)
Definition pow2 (libm_pow : float -> float -> float) (iv : float)
  : result float :=
  if is_nan iv then Returns iv
  else if is_infinity iv then Returns (abs iv)
  else if iv =? 0 then Returns 0
  else
    let iv := if iv <? 0 then - iv else iv in
    if iv =? 1 then Returns 1
    else
      let ix := libm_pow iv 2 in
      if is_infinity ix then Raises OverflowError else Returns ix.

(** C's [fmod]: the exact remainder [x - n * y], [n] the quotient truncated
    toward zero; it has the sign of [x] and is always representable. *)
Definition fmod (x y : float) : float :=
  match Prim2SF x, Prim2SF y with
  | S754_nan, _ | _, S754_nan => nan
  | S754_infinity _, _ => nan
  | _, S754_zero _ => nan
  | S754_zero _, _ => x
  | _, S754_infinity _ => x
  | S754_finite sx mx ex, S754_finite sy my ey =>
      if abs x <? abs y then x
      else
        let e := Z.min ex ey in
        let r := Z.rem (Zpos mx * Z.pow 2 (ex - e)) (Zpos my * Z.pow 2 (ey - e)) in
        SF2Prim (binary_normalize prec emax (cond_Zopp sx r) e sx)
  end.

(** C's [floor]: the largest integral value not above [x]. *)
Definition floor (x : float) : float :=
  match Prim2SF x with
  | S754_finite s m e =>
      if (0 <=? e)%Z then x
      else
        let n := Z.div (cond_Zopp s (Zpos m)) (Z.pow 2 (- e)) in
        SF2Prim (binary_normalize prec emax n 0 s)
  | _ => x
  end.

(** C's [copysign] at a zero magnitude. *)
Definition copysign_zero (y : float) : float :=
  if get_sign y then PrimFloat.neg_zero else PrimFloat.zero.

(** The quotient of [_float_div_mod], for [wx != 0]: the remainder is taken
    with [fmod], the quotient [(vx - mod) / wx] is lowered by one when the
    remainder and the divisor differ in sign, then snapped to the nearest
    integral value. *)
Definition floor_quotient (vx wx : float) : float :=
  let md := fmod vx wx in
  let div := (vx - md) / wx in
  let div :=
    if negb (md =? 0) && negb (Bool.eqb (wx <? 0) (md <? 0))
    then div - 1 else div in
  if negb (div =? 0) then
    let floordiv := floor div in
    if 0.5 <? div - floordiv then floordiv + 1 else floordiv
  else copysign_zero (vx / wx).

(** [x // y] (float_floor_div): ZeroDivisionError when [y == 0.0]. *)
Definition floordiv (vx wx : float) : result float :=
  if wx =? 0 then Raises ZeroDivisionError
  else Returns (floor_quotient vx wx).

(** *** [format(x, '.3f')]

    Fixed-point notation with three digits after the point, the exact binary
    value rounded to the nearest thousandth, ties to even; the sign is the
    float's sign bit.  Infinities and NaN have no digits. *)
Definition round_half_even (num den : Z) : Z :=
  let q := Z.div num den in
  let r := Z.modulo num den in
  match Z.compare (2 * r) den with
  | Lt => q
  | Gt => (q + 1)%Z
  | Eq => if Z.even q then q else (q + 1)%Z
  end.

(** [|x| * 1000] rounded to an integer, for [|x| = m * 2^e]. *)
Definition thousandths (m : positive) (e : Z) : Z :=
  if (0 <=? e)%Z then (Zpos m * Z.pow 2 e * 1000)%Z
  else round_half_even (Zpos m * 1000) (Z.pow 2 (- e)).

Definition digit (n : Z) : ascii := ascii_of_nat (48 + Z.to_nat n).

Definition fixed3 (s : bool) (n : Z) : string :=
  ((if s then "-" else "")
   ++ NilZero.string_of_uint (N.to_uint (Z.to_N (Z.div n 1000)))
   ++ "."
   ++ String (digit (Z.modulo (Z.div n 100) 10))
        (String (digit (Z.modulo (Z.div n 10) 10))
           (String (digit (Z.modulo n 10)) "")))%string.

Definition format_3f (x : float) : string :=
  match Prim2SF x with
  | S754_nan => "nan"
  | S754_infinity s => if s then "-inf" else "inf"
  | S754_zero s => fixed3 s 0
  | S754_finite s m e => fixed3 s (thousandths m e)
  end.

End PyFloat.

Notation "x /! y" := (PyFloat.truediv x y) (at level 40, left associativity).

Open Scope float_scope.

(** ** InfoMessage *)

(** The dataclass [InfoMessage].  [MESSAGE] keeps its default: the only
    construction in the program, in [show_training_info], passes the five
    values below. *)
Record InfoMessage : Type := new_InfoMessage {
  training_type : string;
  msg_duration : float;
  msg_distance : float;
  msg_speed : float;
  msg_calories : float
}.

(** [get_message] fills the template [MESSAGE] with the fields of [self]:
    [{training_type}] is the string itself, each of the four [:.3f] fields is
    [format(x, '.3f')]. *)
Definition get_message (self : InfoMessage) : string :=
  ("Тип тренировки: " ++ training_type self ++ "; "
   ++ "Длительность: " ++ PyFloat.format_3f (msg_duration self) ++ " ч.; "
   ++ "Дистанция: " ++ PyFloat.format_3f (msg_distance self) ++ " км; "
   ++ "Ср. скорость: " ++ PyFloat.format_3f (msg_speed self) ++ " км/ч; "
   ++ "Потрачено ккал: " ++ PyFloat.format_3f (msg_calories self) ++ ".")%string.

(** ** Training, the base class *)

(** The attributes set by [Training.__init__]. *)
Record Training : Type := new_Training {
  action : float;
  duration : float;
  weight : float
}.

(** A class of the hierarchy: its name, the attributes its instances inherit
    from [Training], the class attribute [LEN_STEP] and the two methods a
    subclass may override.  A call [self.m()] of the source is a call through
    this table. *)
Class TrainingClass (T : Type) : Type := {
  __name__ : string;
  fields : T -> Training;
  LEN_STEP : float;
  get_mean_speed : T -> result float;
  get_spent_calories : T -> result float
}.

(** The class attributes of [Training]. *)
Definition Training_LEN_STEP : float := 0.65.
Definition M_IN_KM : float := 1000.

(** [Training.get_distance], with [self.LEN_STEP] as [len_step]. *)
Definition Training_get_distance (len_step : float) (self : Training) : float :=
  action self * len_step / M_IN_KM.

(** [Training.get_mean_speed], with [self.LEN_STEP] as [len_step]. *)
Definition Training_get_mean_speed (len_step : float) (self : Training)
  : result float :=
  Training_get_distance len_step self /! duration self.

(** [Training.get_spent_calories]. *)
Definition Training_get_spent_calories (self : Training) : result float :=
  Raises (NotImplementedError "Method is implemented in children").

(** [get_distance] is overridden nowhere: every instance runs
    [Training.get_distance] with its own class's [LEN_STEP]. *)
Definition get_distance {T : Type} `{TrainingClass T} (self : T) : float :=
  Training_get_distance LEN_STEP (fields self).

(** [Training.show_training_info], inherited by every class.  The arguments of
    [InfoMessage] are evaluated from left to right. *)
Definition show_training_info {T : Type} `{TrainingClass T} (self : T)
  : result InfoMessage :=
  let distance := get_distance self in
  speed ← get_mean_speed self;
  calories ← get_spent_calories self;
  Returns (new_InfoMessage __name__ (duration (fields self)) distance speed calories).

#[export] Instance Training_class : TrainingClass Training := {|
  __name__ := "Training";
  fields := fun self => self;
  LEN_STEP := Training_LEN_STEP;
  get_mean_speed := Training_get_mean_speed Training_LEN_STEP;
  get_spent_calories := Training_get_spent_calories
|}.

(** ** Running *)

(** [Running] adds no attribute and inherits [__init__]. *)
Record Running : Type := new_Running { Running_fields : Training }.

Definition RUN_COEF_CALORIE_1 : float := 18.
Definition RUN_COEF_CALORIE_2 : float := 20.
Definition H_IN_MIN : float := 60.

(** [Running.get_spent_calories]; [self.get_mean_speed()] is the inherited
    method with the inherited [LEN_STEP]. *)
Definition Running_get_spent_calories (self : Running) : result float :=
  let self := Running_fields self in
  speed ← Training_get_mean_speed Training_LEN_STEP self;
  Returns ((RUN_COEF_CALORIE_1 * speed - RUN_COEF_CALORIE_2)
           * weight self / M_IN_KM * duration self * H_IN_MIN).

#[export] Instance Running_class : TrainingClass Running := {|
  __name__ := "Running";
  fields := Running_fields;
  LEN_STEP := Training_LEN_STEP;
  get_mean_speed := fun self =>
    Training_get_mean_speed Training_LEN_STEP (Running_fields self);
  get_spent_calories := Running_get_spent_calories
|}.

(** ** SportsWalking *)

Record SportsWalking : Type := new_SportsWalking {
  SportsWalking_fields : Training;
  height : float
}.

Definition SW_COEF_CALORIE_1 : float := 0.035.
Definition SW_COEF_CALORIE_2 : float := 0.029.

Section Program.

(** The C library's [pow], which CPython's [**] calls. *)
Variable libm_pow : float -> float -> float.

(** [SportsWalking.get_spent_calories].  The operands are evaluated from left
    to right: the mean speed, its square, then the floor division by the
    height; the first of them that raises ends the call. *)
Definition SportsWalking_get_spent_calories (self : SportsWalking)
  : result float :=
  let base := SportsWalking_fields self in
  speed ← Training_get_mean_speed Training_LEN_STEP base;
  square ← PyFloat.pow2 libm_pow speed;
  quotient ← PyFloat.floordiv square (height self);
  Returns ((SW_COEF_CALORIE_1 * weight base
            + quotient * SW_COEF_CALORIE_2 * weight base)
           * duration base * H_IN_MIN).

#[local] Instance SportsWalking_class : TrainingClass SportsWalking := {|
  __name__ := "SportsWalking";
  fields := SportsWalking_fields;
  LEN_STEP := Training_LEN_STEP;
  get_mean_speed := fun self =>
    Training_get_mean_speed Training_LEN_STEP (SportsWalking_fields self);
  get_spent_calories := SportsWalking_get_spent_calories
|}.

(** ** Swimming *)

Record Swimming : Type := new_Swimming {
  Swimming_fields : Training;
  length_pool : float;
  count_pool : float
}.

Definition SWIM_COEF_CALORIE_1 : float := 1.1.
Definition SWIM_COEF_CALORIE_2 : float := 2.
Definition Swimming_LEN_STEP : float := 1.38.

(** [Swimming.get_mean_speed], which overrides the inherited method. *)
Definition Swimming_get_mean_speed (self : Swimming) : result float :=
  length_pool self * count_pool self / M_IN_KM
  /! duration (Swimming_fields self).

(** [Swimming.get_spent_calories]. *)
Definition Swimming_get_spent_calories (self : Swimming) : result float :=
  speed ← Swimming_get_mean_speed self;
  Returns ((speed + SWIM_COEF_CALORIE_1)
           * SWIM_COEF_CALORIE_2 * weight (Swimming_fields self)).

#[export] Instance Swimming_class : TrainingClass Swimming := {|
  __name__ := "Swimming";
  fields := Swimming_fields;
  LEN_STEP := Swimming_LEN_STEP;
  get_mean_speed := Swimming_get_mean_speed;
  get_spent_calories := Swimming_get_spent_calories
|}.

(** ** read_package and main *)

(** An instance of one of the three classes [read_package] can build. *)
Inductive workout : Type :=
| a_Swimming (self : Swimming)
| a_Running (self : Running)
| a_SportsWalking (self : SportsWalking).

(** Calling a class with [*data]: the list must have one value for each
    parameter of [__init__] after [self], or the call raises TypeError. *)
Definition call_Swimming (data : list float) : result workout :=
  match data with
  | [action; duration; weight; length_pool; count_pool] =>
      Returns (a_Swimming
                 (new_Swimming (new_Training action duration weight)
                               length_pool count_pool))
  | _ => Raises TypeError
  end.

Definition call_Running (data : list float) : result workout :=
  match data with
  | [action; duration; weight] =>
      Returns (a_Running (new_Running (new_Training action duration weight)))
  | _ => Raises TypeError
  end.

Definition call_SportsWalking (data : list float) : result workout :=
  match data with
  | [action; duration; weight; height] =>
      Returns (a_SportsWalking
                 (new_SportsWalking (new_Training action duration weight)
                                    height))
  | _ => Raises TypeError
  end.

(** The dictionary of [read_package], from the codes to the classes. *)
Definition training_dict : gmap string (list float -> result workout) :=
  <["WLK" := call_SportsWalking]>
    (<["RUN" := call_Running]> (<["SWM" := call_Swimming]> ∅)).

(** [read_package]: a code that is not a key raises KeyError with the code in
    its text; otherwise the class found under the code is called with the
    values of [data] as its arguments. *)
Definition read_package (workout_type : string) (data : list float)
  : result workout :=
  match training_dict !! workout_type with
  | None =>
      Raises (KeyError (workout_type ++ " - Такой тренировки не существует"))
  | Some cls => cls data
  end.

(** The attributes a [workout] inherits from [Training]. *)
Definition workout_fields (w : workout) : Training :=
  match w with
  | a_Swimming self => Swimming_fields self
  | a_Running self => Running_fields self
  | a_SportsWalking self => SportsWalking_fields self
  end.

(** The methods of a [workout], each looked up in the instance's class. *)
Definition workout_get_distance (w : workout) : float :=
  match w with
  | a_Swimming self => get_distance self
  | a_Running self => get_distance self
  | a_SportsWalking self => get_distance self
  end.

Definition workout_get_mean_speed (w : workout) : result float :=
  match w with
  | a_Swimming self => get_mean_speed self
  | a_Running self => get_mean_speed self
  | a_SportsWalking self => get_mean_speed self
  end.

Definition workout_get_spent_calories (w : workout) : result float :=
  match w with
  | a_Swimming self => get_spent_calories self
  | a_Running self => get_spent_calories self
  | a_SportsWalking self => get_spent_calories self
  end.

Definition workout_show_training_info (w : workout) : result InfoMessage :=
  match w with
  | a_Swimming self => show_training_info self
  | a_Running self => show_training_info self
  | a_SportsWalking self => show_training_info self
  end.

(** [main]: the line it prints. *)
Definition main (training : workout) : result string :=
  info ← workout_show_training_info training;
  Returns (get_message info).

(** ** The script

    The body of the loop under [if __name__ == '__main__']: one package is
    read, then [main] prints its line. *)
Definition process (workout_type : string) (data : list float)
  : result string :=
  training ← read_package workout_type data;
  main training.

(** The loop over [packages]: the lines printed, in order, and the exception
    that ended the run, if any.  The lines printed before an exception stay
    printed. *)
Fixpoint script (packages : list (string * list float))
  : list string * option exception :=
  match packages with
  | [] => ([], None)
  | (workout_type, data) :: rest =>
      match process workout_type data with
      | Raises e => ([], Some e)
      | Returns line =>
          let (lines, raised) := script rest in (line :: lines, raised)
      end
  end.

(** The packages of the source. *)
Definition packages : list (string * list float) :=
  [("SWM", [720; 1; 80; 25; 40]);
   ("RUN", [15000; 1; 75]);
   ("WLK", [9000; 1; 75; 180])].

End Program.

(** * Definitions of the specification *)

(** ** The sample packages of the specification's testable properties *)

Definition running_sample : Running :=
  new_Running (new_Training 15000 1 75).

Definition walking_sample : SportsWalking :=
  new_SportsWalking (new_Training 9000 1 75) 180.

Definition swimming_sample : Swimming :=
  new_Swimming (new_Training 720 1 80) 25 40.

(** ** The C library *)

(** A C library whose [pow] is correctly rounded at the exponent 2, the only
    exponent the program raises to. *)
Definition rounded_square (x y : float) : float := x * x.

(** [libm_pow x 2] is the correctly rounded square of [x] or one of its two
    neighbours: an error below one unit in the last place. *)
Definition pow2_faithful (libm_pow : float -> float -> float) (x : float)
  : Prop :=
  libm_pow x 2 = next_down (x * x)
  \/ libm_pow x 2 = x * x
  \/ libm_pow x 2 = next_up (x * x).

(** ** The formulas of the specification *)

(** RaceWalking's calories (section 4.3), over the floor division [floorDiv]
    and the squared mean speed. *)
Definition spec_RaceWalking_calories (floorDiv : float -> float -> float)
  (squaredSpeed weightKg heightCm durationHours : float) : float :=
  (0.035 * weightKg + floorDiv squaredSpeed heightCm * 0.029 * weightKg)
  * durationHours * 60.

(** Swimming's mean speed and calories (section 4.4). *)
Definition spec_Swimming_speed (poolLengthM poolLapsCount durationHours : float)
  : float :=
  poolLengthM * poolLapsCount / 1000 / durationHours.

Definition spec_Swimming_calories (meanSpeedKmh weightKg : float) : float :=
  (meanSpeedKmh + 1.1) * 2 * weightKg.

(** Running's calories (section 4.2). *)
Definition spec_Running_calories (meanSpeedKmh weightKg durationHours : float)
  : float :=
  (18 * meanSpeedKmh - 20) * weightKg / 1000 * durationHours * 60.

(** The Dispatcher's codes and the number of values each expects
    (section 4.5). *)
Definition recognized_codes : list string := ["SWM"; "RUN"; "WLK"].

Definition expected_arity (code : string) : option nat :=
  if String.eqb code "SWM" then Some 5%nat
  else if String.eqb code "RUN" then Some 3%nat
  else if String.eqb code "WLK" then Some 4%nat
  else None.

(** The text of the unknown-kind error for [code]. *)
Definition unknown_kind_message (code : string) : string :=
  (code ++ " - Такой тренировки не существует")%string.

(** ** Fixed-point notation *)

Definition is_digit (c : ascii) : bool :=
  let n := nat_of_ascii c in (48 <=? n)%nat && (n <=? 57)%nat.

Fixpoint all_digits (s : string) : bool :=
  match s with
  | EmptyString => true
  | String c rest => is_digit c && all_digits rest
  end.

(** One digit or more, a point, then exactly three digits. *)
Fixpoint digits_point_3 (seen : bool) (s : string) : bool :=
  match s with
  | EmptyString => false
  | String c rest =>
      if is_digit c then digits_point_3 true rest
      else if Ascii.eqb c "." then
        seen && (String.length rest =? 3)%nat && all_digits rest
      else false
  end.

(** Fixed-point notation with three digits after the point: an optional
    minus sign, one digit or more, a point, three digits. *)
Definition is_fixed_point_3 (s : string) : bool :=
  digits_point_3 false
    match s with
    | String "-" rest => rest
    | _ => s
    end.

(** The number a string of decimal digits denotes, read from the left after
    [acc]; a point is skipped. *)
Fixpoint digits_value (acc : Z) (s : string) : Z :=
  match s with
  | EmptyString => acc
  | String c rest =>
      if Ascii.eqb c "." then digits_value acc rest
      else digits_value (10 * acc + (Z.of_nat (nat_of_ascii c) - 48)) rest
  end.

(** Reading a fixed-point notation with three digits after the point: its
    sign and the number of thousandths it denotes. *)
Definition read_thousandths (s : string) : bool * Z :=
  match s with
  | String "-" rest => (true, digits_value 0 rest)
  | _ => (false, digits_value 0 s)
  end.

(** ** Signs of specification floats *)

(** The sign bit is clear: [+0], a positive number or [+inf]. *)
Definition sign_clear (x : spec_float) : bool :=
  match x with
  | S754_zero s | S754_infinity s | S754_finite s _ _ => negb s
  | S754_nan => false
  end.

(** [0 <= x]: a zero of either sign, a positive number or [+inf]. *)
Definition nonneg (x : spec_float) : bool :=
  match x with
  | S754_zero _ => true
  | S754_infinity s | S754_finite s _ _ => negb s
  | S754_nan => false
  end.

(** A positive finite number. *)
Definition pos_finite (x : spec_float) : bool :=
  match x with
  | S754_finite s _ _ => negb s
  | _ => false
  end.

(** The sign bit is [s]. *)
Definition has_sign (s : bool) (x : spec_float) : bool :=
  match x with
  | S754_zero s' | S754_infinity s' | S754_finite s' _ _ => Bool.eqb s s'
  | S754_nan => false
  end.

(** [x <= 0]: a zero of either sign, a negative number or [-inf]. *)
Definition nonpos (x : spec_float) : bool :=
  match x with
  | S754_zero _ => true
  | S754_infinity s | S754_finite s _ _ => s
  | S754_nan => false
  end.

(** ** Packages and records *)

(** The package a record is read from: its code and its values. *)
Definition package_of (w : workout) : string * list float :=
  match w with
  | a_Swimming self =>
      ("SWM", [action (Swimming_fields self); duration (Swimming_fields self);
               weight (Swimming_fields self); length_pool self;
               count_pool self])
  | a_Running self =>
      ("RUN", [action (Running_fields self); duration (Running_fields self);
               weight (Running_fields self)])
  | a_SportsWalking self =>
      ("WLK", [action (SportsWalking_fields self);
               duration (SportsWalking_fields self);
               weight (SportsWalking_fields self); height self])
  end.

(** The name of the class a recognized code selects. *)
Definition class_name_of (code : string) : option string :=
  if String.eqb code "SWM" then Some "Swimming"
  else if String.eqb code "RUN" then Some "Running"
  else if String.eqb code "WLK" then Some "SportsWalking"
  else None.

(** * Facts about binary64 arithmetic

    The primitive operations are specified by [SpecFloat]'s functions on
    [spec_float] (sign, mantissa, exponent); the facts below are read off
    those functions. *)
Module FloatFacts.

Lemma sign_clear_nonneg x : sign_clear x = true -> nonneg x = true.
Proof. destruct x as [s|s| |s m e]; simpl; auto. Qed.

(** Rounding never turns a non-negative mantissa into a negative one. *)
Lemma shr_1_nonneg mrs : (0 <= shr_m mrs)%Z -> (0 <= shr_m (shr_1 mrs))%Z.
Proof.
  destruct mrs as [m r s]; simpl.
  destruct m as [|p|p]; [ | destruct p | ]; simpl; lia.
Qed.

Lemma iter_shr_1_nonneg p mrs :
  (0 <= shr_m mrs)%Z -> (0 <= shr_m (SpecFloat.iter_pos shr_1 p mrs))%Z.
Proof.
  revert mrs; induction p as [p IH|p IH|]; intros mrs H; simpl.
  - apply IH, IH, shr_1_nonneg, H.
  - apply IH, IH, H.
  - apply shr_1_nonneg, H.
Qed.

Lemma shr_fexp_nonneg prec emax m e l :
  (0 <= m)%Z -> (0 <= shr_m (fst (shr_fexp prec emax m e l)))%Z.
Proof.
  intros H. unfold shr_fexp, shr.
  assert (H0 : (0 <= shr_m (shr_record_of_loc m l))%Z)
    by (destruct l as [|[]]; exact H).
  destruct (fexp prec emax (Zdigits2 m + e) - e)%Z; simpl; auto.
  apply iter_shr_1_nonneg, H0.
Qed.

Lemma round_nearest_even_nonneg m l :
  (0 <= m)%Z -> (0 <= round_nearest_even m l)%Z.
Proof.
  intros H. destruct l as [|[]]; simpl; try lia.
  destruct (Z.even m); lia.
Qed.

Lemma binary_round_aux_sign_clear prec emax m e l :
  (0 <= m)%Z -> sign_clear (binary_round_aux prec emax false m e l) = true.
Proof.
  intros H. unfold binary_round_aux.
  pose proof (shr_fexp_nonneg prec emax m e l H) as H1.
  destruct (shr_fexp prec emax m e l) as [mrs' e'] eqn:E1. simpl in H1.
  pose proof (shr_fexp_nonneg prec emax _ e' loc_Exact
                (round_nearest_even_nonneg _ (loc_of_shr_record mrs') H1)) as H2.
  destruct (shr_fexp prec emax _ e' loc_Exact) as [mrs'' e''] eqn:E2.
  simpl in H2.
  destruct (shr_m mrs'') as [|p|p]; try reflexivity; [ | lia ].
  destruct (e'' <=? emax - prec)%Z; reflexivity.
Qed.

(** Multiplying or dividing a non-negative float by a positive finite one
    gives a non-negative float. *)
Lemma SFmul_nonneg prec emax x y :
  nonneg x = true -> pos_finite y = true ->
  nonneg (SFmul prec emax x y) = true.
Proof.
  destruct x as [sx|sx| |sx mx ex], y as [sy|sy| |sy my ey]; simpl;
    try discriminate; destruct sy; simpl; try discriminate; auto.
  - destruct sx; auto.
  - destruct sx; simpl; try discriminate. intros _ _.
    apply sign_clear_nonneg, binary_round_aux_sign_clear. lia.
Qed.

Lemma SFdiv_core_nonneg prec emax mx ex my ey :
  (0 <= fst (fst (SFdiv_core_binary prec emax (Zpos mx) ex (Zpos my) ey)))%Z.
Proof.
  unfold SFdiv_core_binary.
  set (s := (ex - ey - _)%Z).
  set (m' := match s with Z.pos _ => Z.shiftl (Z.pos mx) s | 0%Z => Z.pos mx | _ => 0%Z end).
  assert (Hm : (0 <= m')%Z).
  { subst m'. destruct s; try lia. apply Z.shiftl_nonneg. lia. }
  pose proof (Z.div_pos m' (Zpos my) Hm ltac:(lia)) as Hq.
  unfold Z.div in Hq. destruct (Z.div_eucl m' (Z.pos my)) as [q r]. exact Hq.
Qed.

Lemma SFdiv_sign_clear prec emax mx ex my ey :
  sign_clear
    (SFdiv prec emax (S754_finite false mx ex) (S754_finite false my ey)) = true.
Proof.
  simpl. pose proof (SFdiv_core_nonneg prec emax mx ex my ey) as H.
  destruct (SFdiv_core_binary prec emax (Z.pos mx) ex (Z.pos my) ey) as [[mz ez] lz].
  apply binary_round_aux_sign_clear, H.
Qed.

Lemma SFdiv_nonneg prec emax x y :
  nonneg x = true -> pos_finite y = true ->
  nonneg (SFdiv prec emax x y) = true.
Proof.
  destruct x as [sx|sx| |sx mx ex], y as [sy|sy| |sy my ey];
    try discriminate; destruct sy; try discriminate; auto.
  - destruct sx; auto.
  - destruct sx; try discriminate. intros _ _.
    apply sign_clear_nonneg, SFdiv_sign_clear.
Qed.

(** The same facts on primitive floats. *)
Lemma Prim2SF_zero : Prim2SF 0 = S754_zero false.
Proof. reflexivity. Qed.

Lemma leb_zero x : (0 <=? x) = nonneg (Prim2SF x).
Proof.
  rewrite leb_spec, Prim2SF_zero.
  destruct (Prim2SF x) as [s|s| |s m e]; try destruct s; reflexivity.
Qed.

(** A float is finite when its specification is a zero or a finite number. *)
Lemma is_finite_spec x :
  is_finite x
  = match Prim2SF x with
    | S754_zero _ | S754_finite _ _ _ => true
    | _ => false
    end.
Proof.
  unfold is_finite, is_nan, is_infinity.
  rewrite !FloatAxioms.eqb_spec, abs_spec.
  destruct (Prim2SF x) as [[]|[]| |[] m e]; try reflexivity;
    unfold SFeqb, SFcompare; simpl;
    rewrite Z.compare_refl, Pos.compare_cont_refl; reflexivity.
Qed.

Lemma mul_nonneg x c :
  (0 <=? x) = true -> pos_finite (Prim2SF c) = true -> (0 <=? x * c) = true.
Proof.
  rewrite !leb_zero, mul_spec. apply SFmul_nonneg.
Qed.

Lemma div_nonneg x c :
  (0 <=? x) = true -> pos_finite (Prim2SF c) = true -> (0 <=? x / c) = true.
Proof.
  rewrite !leb_zero, div_spec. apply SFdiv_nonneg.
Qed.

End FloatFacts.

(** * Facts about Python's float operators *)
Module PyFloatFacts.
Import FloatFacts.

(** Case analysis on the specifications of two floats, closing the cases a
    hypothesis rules out. *)
Ltac by_cases x y :=
  destruct (Prim2SF x) as [[]|[]| |[] ? ?], (Prim2SF y) as [[]|[]| |[] ? ?];
  try discriminate; auto.

Lemma ltb_zero_nonneg x : nonneg (Prim2SF x) = true -> (x <? 0) = false.
Proof.
  rewrite ltb_spec, Prim2SF_zero.
  destruct (Prim2SF x) as [[]|[]| |[] ? ?]; try discriminate; reflexivity.
Qed.

(** A float below another one is finite when it is not negative. *)
Lemma is_finite_below x y :
  (0 <=? x) = true -> (x <? y) = true -> is_finite x = true.
Proof.
  rewrite leb_zero, ltb_spec, is_finite_spec. intros Hx Hxy. by_cases x y.
Qed.

(** [x - x] is [+0] for a finite [x]. *)
Lemma sub_diag x : is_finite x = true -> x - x = 0.
Proof.
  rewrite is_finite_spec. intros H.
  apply Prim2SF_inj. rewrite sub_spec, Prim2SF_zero.
  destruct (Prim2SF x) as [[]|[]| |s m e]; try discriminate; try reflexivity.
  unfold SF64sub, SFsub. rewrite Z.min_id.
  unfold shl_align. rewrite !Z.sub_diag. reflexivity.
Qed.

(** The remainder of a non-negative float by a larger one is the float. *)
Lemma fmod_small x y :
  (0 <=? x) = true -> (x <? y) = true -> PyFloat.fmod x y = x.
Proof.
  rewrite leb_zero. intros Hx Hxy. unfold PyFloat.fmod.
  assert (Habs : (abs x <? abs y) = true).
  { rewrite ltb_spec in Hxy. rewrite ltb_spec, !abs_spec. by_cases x y. }
  rewrite Habs. rewrite ltb_spec in Hxy. by_cases x y.
Qed.

(** The floor division of a non-negative float by a larger one is zero. *)
Lemma floor_quotient_small x y :
  (0 <=? x) = true -> (x <? y) = true ->
  (PyFloat.floor_quotient x y =? 0) = true.
Proof.
  intros Hx Hxy.
  pose proof Hx as Hx'. rewrite leb_zero in Hx'.
  pose proof Hxy as Hxy'. rewrite ltb_spec in Hxy'.
  assert (Hy : sign_clear (Prim2SF y) = true /\ 0 / y = 0).
  { split; [by_cases x y|].
    apply Prim2SF_inj. rewrite div_spec, Prim2SF_zero. by_cases x y. }
  destruct Hy as [Hy Hdiv].
  unfold PyFloat.floor_quotient.
  rewrite (fmod_small x y Hx Hxy), (sub_diag x (is_finite_below x y Hx Hxy)), Hdiv.
  rewrite (ltb_zero_nonneg y (sign_clear_nonneg _ Hy)), (ltb_zero_nonneg x Hx').
  simpl Bool.eqb. rewrite andb_false_r.
  change (negb (0 =? 0)) with false. cbv iota.
  unfold PyFloat.copysign_zero. destruct (get_sign (x / y)); reflexivity.
Qed.

End PyFloatFacts.

(** * Facts about [format(x, '.3f')] *)
Module FormatFacts.

Lemma all_digits_uint d : all_digits (NilEmpty.string_of_uint d) = true.
Proof. induction d; simpl; auto. Qed.

Lemma digits_of_uint d :
  all_digits (NilZero.string_of_uint d) = true
  /\ NilZero.string_of_uint d <> "".
Proof.
  destruct d; simpl;
    (split; [try apply all_digits_uint; reflexivity | discriminate]).
Qed.

Lemma is_digit_digit n : (0 <= n < 10)%Z -> is_digit (PyFloat.digit n) = true.
Proof.
  intros H. unfold PyFloat.digit.
  assert (Hk : (Z.to_nat n < 10)%nat) by lia.
  revert Hk. generalize (Z.to_nat n) as k. intros k Hk.
  do 10 (destruct k as [|k]; [reflexivity|]). lia.
Qed.

Lemma digits_point_3_app ds seen d1 d2 d3 :
  all_digits ds = true -> seen = true \/ ds <> "" ->
  is_digit d1 = true -> is_digit d2 = true -> is_digit d3 = true ->
  digits_point_3 seen (ds ++ "." ++ String d1 (String d2 (String d3 "")))
  = true.
Proof.
  intros Hds Hne H1 H2 H3. revert seen Hne.
  induction ds as [|c ds IH]; intros seen Hne.
  - destruct Hne as [->|Hne]; [|congruence]. simpl.
    rewrite H1, H2, H3. reflexivity.
  - simpl in Hds. apply andb_prop in Hds as [Hc Hds]. simpl. rewrite Hc.
    apply IH; auto.
Qed.

Lemma fixed3_shape s n :
  (0 <= n)%Z -> is_fixed_point_3 (PyFloat.fixed3 s n) = true.
Proof.
  intros Hn. unfold PyFloat.fixed3.
  set (ds := NilZero.string_of_uint _).
  destruct (digits_of_uint (N.to_uint (Z.to_N (n / 1000)))) as [Hds Hne].
  fold ds in Hds, Hne.
  assert (Hshape : forall d1 d2 d3,
            is_digit d1 = true -> is_digit d2 = true -> is_digit d3 = true ->
            digits_point_3 false
              (ds ++ "." ++ String d1 (String d2 (String d3 ""))) = true)
    by (intros; apply digits_point_3_app; auto).
  unfold is_fixed_point_3. destruct s; cbn [append].
  - apply Hshape; apply is_digit_digit, Z.mod_pos_bound; lia.
  - destruct ds as [|c ds']; [congruence|].
    simpl in Hds. apply andb_prop in Hds as [Hc _].
    destruct c as [[] [] [] [] [] [] [] []]; try discriminate Hc;
      apply (Hshape _ _ _); apply is_digit_digit, Z.mod_pos_bound; lia.
Qed.

Lemma thousandths_nonneg m e : (0 <= PyFloat.thousandths m e)%Z.
Proof.
  unfold PyFloat.thousandths, PyFloat.round_half_even.
  destruct (0 <=? e)%Z eqn:He.
  - apply Z.leb_le in He. apply Z.mul_nonneg_nonneg; [|lia].
    apply Z.mul_nonneg_nonneg; [lia|]. apply Z.pow_nonneg. lia.
  - apply Z.leb_gt in He.
    assert (Hd : (0 < 2 ^ (- e))%Z) by (apply Z.pow_pos_nonneg; lia).
    assert (Hq : (0 <= Z.pos m * 1000 / 2 ^ (- e))%Z) by (apply Z.div_pos; lia).
    destruct (_ ?= _)%Z; [destruct (Z.even _)| |]; lia.
Qed.

(** A finite float is written in fixed-point notation with three digits. *)
Lemma format_3f_finite x :
  is_finite x = true -> is_fixed_point_3 (PyFloat.format_3f x) = true.
Proof.
  rewrite FloatFacts.is_finite_spec. unfold PyFloat.format_3f.
  destruct (Prim2SF x) as [s|s| |s m e]; try discriminate; intros _.
  - apply fixed3_shape. lia.
  - apply fixed3_shape, thousandths_nonneg.
Qed.

(** An infinity or a NaN is written without any digit. *)
Lemma format_3f_not_finite x :
  is_finite x = false ->
  PyFloat.format_3f x = "nan" \/ PyFloat.format_3f x = "inf"
  \/ PyFloat.format_3f x = "-inf".
Proof.
  rewrite FloatFacts.is_finite_spec. unfold PyFloat.format_3f.
  destruct (Prim2SF x) as [s|[]| |s m e]; try discriminate; auto.
Qed.

End FormatFacts.

(** * Facts about the program *)

Lemma truediv_raises x y e :
  x /! y = Raises e <-> (y =? 0) = true /\ e = ZeroDivisionError.
Proof.
  unfold PyFloat.truediv. destruct (y =? 0); split.
  - intros [= <-]. auto.
  - intros [_ ->]. reflexivity.
  - discriminate.
  - intros [[=] _].
Qed.

Lemma truediv_returns x y :
  (y =? 0) = false -> x /! y = Returns (x / y).
Proof. unfold PyFloat.truediv. intros ->. reflexivity. Qed.

(** The class table, key by key. *)
Lemma training_dict_lookup code :
  training_dict !! code
  = if String.eqb code "SWM" then Some call_Swimming
    else if String.eqb code "RUN" then Some call_Running
    else if String.eqb code "WLK" then Some call_SportsWalking
    else None.
Proof.
  unfold training_dict.
  destruct (String.eqb_spec code "SWM") as [->|H1]; [reflexivity|].
  destruct (String.eqb_spec code "RUN") as [->|H2]; [reflexivity|].
  destruct (String.eqb_spec code "WLK") as [->|H3]; [reflexivity|].
  rewrite !lookup_insert_ne by congruence. apply lookup_empty.
Qed.

Lemma recognized_codes_spec code :
  In code recognized_codes <-> expected_arity code <> None.
Proof.
  unfold recognized_codes, expected_arity. simpl.
  destruct (String.eqb_spec code "SWM") as [->|H1]; [split; [discriminate|auto]|].
  destruct (String.eqb_spec code "RUN") as [->|H2]; [split; [discriminate|auto]|].
  destruct (String.eqb_spec code "WLK") as [->|H3]; [split; [discriminate|auto]|].
  split; [|congruence]. intros [?|[?|[?|[]]]]; congruence.
Qed.

(** A constructor call returns an instance or raises TypeError, by the
    length of the list. *)
Lemma call_Swimming_arity data :
  if (length data =? 5)%nat then exists w, call_Swimming data = Returns w
  else call_Swimming data = Raises TypeError.
Proof.
  destruct data as [|a [|b [|c [|d [|e [|f data]]]]]]; simpl; eauto.
Qed.

Lemma call_Running_arity data :
  if (length data =? 3)%nat then exists w, call_Running data = Returns w
  else call_Running data = Raises TypeError.
Proof.
  destruct data as [|a [|b [|c [|d data]]]]; simpl; eauto.
Qed.

Lemma call_SportsWalking_arity data :
  if (length data =? 4)%nat then exists w, call_SportsWalking data = Returns w
  else call_SportsWalking data = Raises TypeError.
Proof.
  destruct data as [|a [|b [|c [|d [|e data]]]]]; simpl; eauto.
Qed.

(** [read_package] on a recognized code is the constructor call. *)
Lemma read_package_recognized code n data :
  expected_arity code = Some n ->
  if (length data =? n)%nat then exists w, read_package code data = Returns w
  else read_package code data = Raises TypeError.
Proof.
  unfold read_package, expected_arity. rewrite training_dict_lookup.
  destruct (String.eqb code "SWM"); [intros [= <-]; apply call_Swimming_arity|].
  destruct (String.eqb code "RUN"); [intros [= <-]; apply call_Running_arity|].
  destruct (String.eqb code "WLK"); [intros [= <-]; apply call_SportsWalking_arity|].
  discriminate.
Qed.

Lemma read_package_unknown code data :
  expected_arity code = None ->
  read_package code data = Raises (KeyError (unknown_kind_message code)).
Proof.
  unfold read_package, expected_arity. rewrite training_dict_lookup.
  destruct (String.eqb code "SWM"); [discriminate|].
  destruct (String.eqb code "RUN"); [discriminate|].
  destruct (String.eqb code "WLK"); [discriminate|]. reflexivity.
Qed.

(** * The properties of the specification *)

Section WithLibm.

(** The C library's [pow], any. *)
Variable libm_pow : float -> float -> float.

(** Case analysis on every test of a goal. *)
Ltac case_tests :=
  repeat match goal with
         | |- context [if ?b then _ else _] => destruct b eqn:?
         end.

(** C1, as amended: every Running record of non-zero duration has the
    calories of the Running formula at its mean speed; the summary of the
    record with action 15000, duration 1 and weight 75 is named "Running",
    with duration 1, distance 9.75, mean speed 9.75 and calories 699.75, which
    is what the formula [(18*9.75-20)*75/1000*1*60] evaluates to. *)
Theorem C1_running_summary :
  (forall self : Running,
      (duration (fields self) =? 0) = false ->
      get_spent_calories self
      = Returns (spec_Running_calories
                   (action (fields self) * 0.65 / 1000 / duration (fields self))
                   (weight (fields self)) (duration (fields self))))
  /\ show_training_info running_sample
     = Returns (new_InfoMessage "Running" 1 9.75 9.75 699.75)
  /\ 15000 * 0.65 / 1000 = 9.75
  /\ spec_Running_calories 9.75 75 1 = 699.75.
Proof.
  split; [|repeat split; reflexivity].
  intros [[a d w]] Hd. simpl in *.
  unfold Running_get_spent_calories, Training_get_mean_speed. simpl.
  rewrite (truediv_returns _ _ Hd). reflexivity.
Qed.

(** The walking sample's summary, by the square of its mean speed. *)
Lemma walking_sample_summary :
  show_training_info (H := SportsWalking_class libm_pow) walking_sample
  = (square ← PyFloat.pow2 libm_pow 5.85;
     quotient ← PyFloat.floordiv square 180;
     Returns (new_InfoMessage "SportsWalking" 1 5.85 5.85
                (spec_RaceWalking_calories (fun _ _ => quotient)
                   square 75 180 1))).
Proof.
  unfold show_training_info, get_spent_calories, get_mean_speed,
    SportsWalking_class, SportsWalking_get_spent_calories.
  change (Training_get_mean_speed Training_LEN_STEP (SportsWalking_fields walking_sample))
    with (Returns 5.85).
  cbn [mbind result_bind].
  destruct (PyFloat.pow2 libm_pow 5.85) as [square|e];
    cbn [mbind result_bind]; [|reflexivity].
  change (height walking_sample) with 180.
  destruct (PyFloat.floordiv square 180) as [quotient|e]; reflexivity.
Qed.

(** With a C library accurate to one unit in the last place, the floor term of
    the walking sample is [0] and its calories are 157.50000000000003. *)
Lemma walking_sample_info :
  pow2_faithful libm_pow 5.85 ->
  (square ← PyFloat.pow2 libm_pow 5.85; PyFloat.floordiv square 180)
  = Returns 0
  /\ show_training_info (H := SportsWalking_class libm_pow) walking_sample
     = Returns (new_InfoMessage "SportsWalking" 1 5.85 5.85
                  157.50000000000003).
Proof.
  intros H. rewrite walking_sample_summary.
  change (PyFloat.pow2 libm_pow 5.85)
    with (let v := libm_pow 5.85 2 in
          if is_infinity v then Raises OverflowError else Returns v).
  destruct H as [->|[->| ->]]; split; reflexivity.
Qed.


(** C3: every Swimming record of non-zero duration has the mean speed
    [length_pool * count_pool / 1000 / duration], whatever its action count,
    and the calories [(speed + 1.1) * 2 * weight]; for action 720, duration 1,
    weight 80, pool length 25 and 40 laps the speed is 1.0 and the calories
    are 336.0. *)
Theorem C3_swimming_speed_and_calories :
  (forall self : Swimming,
      (duration (fields self) =? 0) = false ->
      get_mean_speed self
      = Returns (spec_Swimming_speed (length_pool self) (count_pool self)
                   (duration (fields self)))
      /\ get_spent_calories self
         = Returns (spec_Swimming_calories
                      (spec_Swimming_speed (length_pool self) (count_pool self)
                         (duration (fields self)))
                      (weight (fields self))))
  /\ (forall action action' duration weight length_pool count_pool,
         get_mean_speed
           (new_Swimming (new_Training action duration weight)
              length_pool count_pool)
         = get_mean_speed
             (new_Swimming (new_Training action' duration weight)
                length_pool count_pool))
  /\ get_mean_speed swimming_sample = Returns 1
  /\ get_spent_calories swimming_sample = Returns 336.
Proof.
  split; [|repeat split; reflexivity].
  intros [[a d w] l c] Hd. simpl in *.
  unfold Swimming_get_spent_calories, Swimming_get_mean_speed. simpl.
  rewrite (truediv_returns _ _ Hd). split; reflexivity.
Qed.

(** C4: [read_package] raises the unknown-kind KeyError, whose text starts
    with the code, exactly when the code is none of "SWM", "RUN" and "WLK";
    it raises no other KeyError; for "XYZ" the error carries "XYZ". *)
Theorem C4_unknown_workout_kind (code : string) (data : list float) :
  (read_package code data = Raises (KeyError (unknown_kind_message code))
   <-> ~ In code recognized_codes)
  /\ (forall msg,
         read_package code data = Raises (KeyError msg) ->
         msg = unknown_kind_message code /\ String.prefix code msg = true)
  /\ read_package "XYZ" data
     = Raises (KeyError "XYZ - Такой тренировки не существует").
Proof.
  assert (Hk : forall msg, read_package code data = Raises (KeyError msg) ->
               expected_arity code = None).
  { intros msg H. destruct (expected_arity code) as [n|] eqn:E; [|reflexivity].
    pose proof (read_package_recognized code n data E) as R.
    destruct (length data =? n)%nat; [destruct R as [w R]|]; congruence. }
  split; [|split].
  - rewrite recognized_codes_spec. split.
    + intros H. rewrite (Hk _ H). auto.
    + intros H. apply read_package_unknown.
      destruct (expected_arity code); [destruct H; discriminate|reflexivity].
  - intros msg H. pose proof (Hk _ H) as E.
    rewrite (read_package_unknown _ _ E) in H. injection H as <-.
    split; [reflexivity|]. unfold unknown_kind_message.
    clear. induction code as [|c code IH]; simpl; [reflexivity|].
    destruct (ascii_dec c c); [exact IH|congruence].
  - reflexivity.
Qed.

(** C5, as amended: for every record [get_mean_speed] raises
    ZeroDivisionError exactly when the duration is zero and returns a value
    otherwise; SportsWalking's [get_spent_calories] raises ZeroDivisionError
    exactly when the duration is zero, or the height is zero and the square
    of the mean speed is in range; no test guards either division. *)
Theorem C5_division_faults :
  (forall self : Training,
      get_mean_speed self = Raises ZeroDivisionError
      <-> (duration self =? 0) = true)
  /\ (forall w : workout,
      (workout_get_mean_speed libm_pow w = Raises ZeroDivisionError
       <-> (duration (workout_fields w) =? 0) = true)
      /\ ((duration (workout_fields w) =? 0) = false ->
          exists speed, workout_get_mean_speed libm_pow w = Returns speed))
  /\ (forall self : SportsWalking,
         SportsWalking_get_spent_calories libm_pow self
         = Raises ZeroDivisionError
         <-> (duration (SportsWalking_fields self) =? 0) = true
             \/ ((height self =? 0) = true
                 /\ exists square,
                     PyFloat.pow2 libm_pow
                       (action (SportsWalking_fields self) * 0.65 / 1000
                        / duration (SportsWalking_fields self))
                     = Returns square)).
Proof.
  split; [|split].
  - intros [a d w]. simpl. unfold Training_get_mean_speed. simpl.
    rewrite truediv_raises. tauto.
  - intros [[[a d w] l c]|[[a d w]]|[[a d w] h]]; simpl;
      unfold Swimming_get_mean_speed, Training_get_mean_speed; simpl;
      rewrite truediv_raises; (split; [tauto|]);
      intros Hd; rewrite (truediv_returns _ _ Hd); eauto.
  - intros [[a d w] h]. unfold SportsWalking_get_spent_calories. simpl.
    unfold Training_get_mean_speed, Training_get_distance, Training_LEN_STEP,
      M_IN_KM. simpl.
    unfold PyFloat.truediv at 1. destruct (d =? 0); simpl; [tauto|].
    destruct (PyFloat.pow2 libm_pow (a * 0.65 / 1000 / d)) as [square|e] eqn:Ep;
      simpl.
    + unfold PyFloat.floordiv. destruct (h =? 0); simpl.
      * split; [eauto|reflexivity].
      * split; [discriminate|]. intros [?|[? _]]; discriminate.
    + assert (e = OverflowError) as ->.
      { unfold PyFloat.pow2 in Ep. revert Ep. case_tests; congruence. }
      split; [discriminate|]. intros [?|[_ [? ?]]]; discriminate.
Qed.

(** C6, as amended: [get_message] is the fixed template around the kind and
    the four numbers; every finite number is written in fixed-point notation
    with exactly three digits after the point, whatever its magnitude (9.75 as
    "9.750"); an infinity or a NaN is written "inf", "-inf" or "nan". *)
Theorem C6_message_format :
  (forall info : InfoMessage,
      get_message info
      = ("Тип тренировки: " ++ training_type info
         ++ "; Длительность: " ++ PyFloat.format_3f (msg_duration info)
         ++ " ч.; Дистанция: " ++ PyFloat.format_3f (msg_distance info)
         ++ " км; Ср. скорость: " ++ PyFloat.format_3f (msg_speed info)
         ++ " км/ч; Потрачено ккал: " ++ PyFloat.format_3f (msg_calories info)
         ++ ".")%string)
  /\ (forall x : float,
         is_finite x = true -> is_fixed_point_3 (PyFloat.format_3f x) = true)
  /\ (forall x : float,
         is_finite x = false ->
         PyFloat.format_3f x = "nan" \/ PyFloat.format_3f x = "inf"
         \/ PyFloat.format_3f x = "-inf")
  /\ PyFloat.format_3f 9.75 = "9.750"
  /\ PyFloat.format_3f 1e22 = "10000000000000000000000.000".
Proof.
  split; [|split; [|split; [|split]]].
  - intros info. reflexivity.
  - apply FormatFacts.format_3f_finite.
  - apply FormatFacts.format_3f_not_finite.
  - reflexivity.
  - reflexivity.
Qed.

(** C7: [get_spent_calories] of the base class raises NotImplementedError;
    each of the three classes [read_package] can build overrides it, so a
    record obtained from [read_package] never raises NotImplementedError. *)
Theorem C7_not_implemented :
  (forall self : Training,
      get_spent_calories self
      = Raises (NotImplementedError "Method is implemented in children"))
  /\ (forall (w : workout) (msg : string),
         workout_get_spent_calories libm_pow w
         <> Raises (NotImplementedError msg))
  /\ (forall code data w,
         read_package code data = Returns w ->
         forall msg,
           workout_get_spent_calories libm_pow w
           <> Raises (NotImplementedError msg)).
Proof.
  assert (H : forall (w : workout) (msg : string),
             workout_get_spent_calories libm_pow w
             <> Raises (NotImplementedError msg)).
  { intros [[[a d w] l c]|[[a d w]]|[[a d w] h]] msg; simpl;
      unfold Swimming_get_spent_calories, Swimming_get_mean_speed,
        Running_get_spent_calories, SportsWalking_get_spent_calories,
        Training_get_mean_speed, PyFloat.truediv, PyFloat.pow2,
        PyFloat.floordiv; simpl;
      case_tests; simpl; case_tests; simpl; case_tests; discriminate. }
  split; [reflexivity|]. split; [exact H|]. intros code data w _. apply H.
Qed.

(** C8: for each of the three classes the distance is the action count times
    the length of one action (0.65, and 1.38 for Swimming) divided by 1000,
    and it is not negative whenever the action count is not negative. *)
Theorem C8_distance_nonnegative (w : workout) :
  (0 <=? action (workout_fields w)) = true ->
  (0 <=? workout_get_distance libm_pow w) = true
  /\ workout_get_distance libm_pow w
     = action (workout_fields w)
       * match w with a_Swimming _ => 1.38 | _ => 0.65 end
       / 1000.
Proof.
  intros Ha. split; [|destruct w; reflexivity].
  destruct w as [self|self|self]; simpl in *;
    unfold get_distance, Training_get_distance;
    apply FloatFacts.div_nonneg; try reflexivity;
    apply FloatFacts.mul_nonneg; try reflexivity; exact Ha.
Qed.

(** C9: for a recognized code, [read_package] raises TypeError, the error of
    a call with the wrong number of arguments, whenever the length of the
    payload is not the number of values of the selected class (3 for "RUN",
    4 for "WLK", 5 for "SWM"), and builds a record otherwise. *)
Theorem C9_arity_mismatch (code : string) (data : list float) (n : nat) :
  expected_arity code = Some n ->
  (length data <> n -> read_package code data = Raises TypeError)
  /\ (length data = n -> exists w, read_package code data = Returns w).
Proof.
  intros E. pose proof (read_package_recognized code n data E) as R.
  destruct (Nat.eqb_spec (length data) n); split; intros; congruence.
Qed.

(** C10: the summary of every Swimming record of non-zero duration reports
    the distance [action * 1.38 / 1000], whatever the pool length and the lap
    count, next to the mean speed computed from the pool; for the sample
    record the distance, 0.9936, is not the mean speed times the duration,
    1.0. *)
Theorem C10_swimming_distance :
  (forall self : Swimming,
      (duration (fields self) =? 0) = false ->
      exists info,
        show_training_info self = Returns info
        /\ msg_distance info = action (fields self) * 1.38 / 1000
        /\ msg_speed info
           = length_pool self * count_pool self / 1000 / duration (fields self)
        /\ msg_duration info = duration (fields self))
  /\ (forall base length_pool count_pool length_pool' count_pool',
         get_distance (new_Swimming base length_pool count_pool)
         = get_distance (new_Swimming base length_pool' count_pool'))
  /\ (exists info,
         show_training_info swimming_sample = Returns info
         /\ msg_distance info = 0.99359999999999993
         /\ msg_speed info * msg_duration info = 1
         /\ (msg_distance info =? msg_speed info * msg_duration info) = false).
Proof.
  split; [|split].
  - intros [[a d w] l c] Hd. simpl in *.
    unfold show_training_info. simpl.
    unfold Swimming_get_spent_calories, Swimming_get_mean_speed. simpl.
    rewrite (truediv_returns _ _ Hd). simpl.
    eexists. split; [reflexivity|]. repeat split.
  - reflexivity.
  - exists (new_InfoMessage "Swimming" 1 0.99359999999999993 1 336).
    repeat split; reflexivity.
Qed.

End WithLibm.

(** * Counterexamples and instances *)

(** C1, as stated, fails: the calories of the sample summary are 699.75,
    which is 51 above 648.75. *)
Lemma C1_calories_are_not_648_75 :
  exists info,
    show_training_info running_sample = Returns info
    /\ msg_calories info = 699.75
    /\ msg_calories info - 648.75 = 51.
Proof.
  exists (new_InfoMessage "Running" 1 9.75 9.75 699.75).
  repeat split; reflexivity.
Qed.


(** C5, as stated, fails: a SportsWalking record of duration 0 and height 180
    raises ZeroDivisionError from [get_spent_calories] though its height is
    not zero, and a record of height 0 whose squared speed is out of range
    raises OverflowError, not a division fault. *)
Lemma C5_zero_duration_faults_at_height_180 :
  SportsWalking_get_spent_calories rounded_square
    (new_SportsWalking (new_Training 9000 0 75) 180)
  = Raises ZeroDivisionError
  /\ (180 =? 0) = false
  /\ SportsWalking_get_spent_calories rounded_square
       (new_SportsWalking (new_Training 1e203 1 75) 0)
     = Raises OverflowError.
Proof. repeat split; reflexivity. Qed.

(** C6, as stated, fails: the summary of a Running record of 2 steps in
    1e-320 hours has an infinite mean speed and infinite calories, which the
    message writes as "inf", with no digit after a point. *)
Lemma C6_infinite_speed_is_written_inf :
  (info ← show_training_info (new_Running (new_Training 2 1e-320 75));
   Returns (get_message info))
  = Returns
      "Тип тренировки: Running; Длительность: 0.000 ч.; Дистанция: 0.001 км; Ср. скорость: inf км/ч; Потрачено ккал: inf."
  /\ is_fixed_point_3 (PyFloat.format_3f infinity) = false.
Proof. split; reflexivity. Qed.

(** C1 at the sample record. *)
Lemma C1_running_summary_witness :
  (duration (fields running_sample) =? 0) = false
  /\ get_spent_calories running_sample
     = Returns (spec_Running_calories (15000 * 0.65 / 1000 / 1) 75 1).
Proof.
  split; [reflexivity|].
  apply (proj1 C1_running_summary running_sample). reflexivity.
Defined.


(** C3 at the sample record. *)
Lemma C3_swimming_speed_and_calories_witness :
  (duration (fields swimming_sample) =? 0) = false
  /\ get_mean_speed swimming_sample = Returns (spec_Swimming_speed 25 40 1).
Proof.
  split; [reflexivity|].
  apply (proj1 C3_swimming_speed_and_calories swimming_sample). reflexivity.
Defined.

(** C4 at the code "XYZ". *)
Lemma C4_unknown_workout_kind_witness :
  ~ In "XYZ" recognized_codes
  /\ read_package "XYZ" [9000; 1; 75; 180]
     = Raises (KeyError (unknown_kind_message "XYZ")).
Proof.
  assert (H : ~ In "XYZ" recognized_codes).
  { simpl. intros [?|[?|[?|[]]]]; discriminate. }
  split; [exact H|].
  apply (proj1 (C4_unknown_workout_kind "XYZ" [9000; 1; 75; 180])), H.
Defined.

(** C5 at a Running record of duration 0. *)
Lemma C5_division_faults_witness :
  (duration (workout_fields (a_Running (new_Running (new_Training 15000 0 75))))
   =? 0) = true
  /\ workout_get_mean_speed rounded_square
       (a_Running (new_Running (new_Training 15000 0 75)))
     = Raises ZeroDivisionError.
Proof.
  split; [reflexivity|].
  apply (proj1 (proj2 (C5_division_faults rounded_square))). reflexivity.
Defined.

(** C6 at 9.75. *)
Lemma C6_message_format_witness :
  is_finite 9.75 = true /\ is_fixed_point_3 (PyFloat.format_3f 9.75) = true.
Proof.
  split; [reflexivity|].
  apply (proj1 (proj2 C6_message_format)). reflexivity.
Defined.

(** C7 at the Running package of the sample driver. *)
Lemma C7_not_implemented_witness :
  read_package "RUN" [15000; 1; 75] = Returns (a_Running running_sample)
  /\ workout_get_spent_calories rounded_square (a_Running running_sample)
     <> Raises (NotImplementedError "Method is implemented in children").
Proof.
  split; [reflexivity|].
  apply (proj2 (proj2 (C7_not_implemented rounded_square))
           "RUN" [15000; 1; 75]).
  reflexivity.
Defined.

(** C8 at the Running sample. *)
Lemma C8_distance_nonnegative_witness :
  (0 <=? action (workout_fields (a_Running running_sample))) = true
  /\ (0 <=? workout_get_distance rounded_square (a_Running running_sample))
     = true.
Proof.
  split; [reflexivity|].
  apply (C8_distance_nonnegative rounded_square (a_Running running_sample)).
  reflexivity.
Defined.

(** C9 at the code "RUN" with two values. *)
Lemma C9_arity_mismatch_witness :
  expected_arity "RUN" = Some 3%nat
  /\ length [15000; 1] <> 3%nat
  /\ read_package "RUN" [15000; 1] = Raises TypeError.
Proof.
  split; [reflexivity|]. split; [discriminate|].
  apply (proj1 (C9_arity_mismatch "RUN" [15000; 1] 3 eq_refl)). discriminate.
Defined.

(** C10 at the sample record. *)
Lemma C10_swimming_distance_witness :
  (duration (fields swimming_sample) =? 0) = false
  /\ exists info,
      show_training_info swimming_sample = Returns info
      /\ msg_distance info = 720 * 1.38 / 1000.
Proof.
  split; [reflexivity|].
  destruct (proj1 C10_swimming_distance swimming_sample eq_refl)
    as (info & H & Hd & _).
  exists info. split; [exact H|exact Hd].
Defined.

(** * Further facts about binary64 arithmetic

    Signs through multiplication, division and addition. *)
Module SignFacts.
Import FloatFacts.

Lemma binary_round_aux_has_sign prec emax s m e l :
  (0 <= m)%Z -> has_sign s (binary_round_aux prec emax s m e l) = true.
Proof.
  intros H. unfold binary_round_aux.
  pose proof (shr_fexp_nonneg prec emax m e l H) as H1.
  destruct (shr_fexp prec emax m e l) as [mrs' e'] eqn:E1. simpl in H1.
  pose proof (shr_fexp_nonneg prec emax _ e' loc_Exact
                (round_nearest_even_nonneg _ (loc_of_shr_record mrs') H1)) as H2.
  destruct (shr_fexp prec emax _ e' loc_Exact) as [mrs'' e''] eqn:E2.
  simpl in H2.
  destruct (shr_m mrs'') as [|p|p]; [ | |lia].
  - destruct s; reflexivity.
  - destruct (e'' <=? emax - prec)%Z; destruct s; reflexivity.
Qed.

(** Multiplying or dividing by a positive finite float keeps the sign bit. *)
Lemma SFmul_has_sign prec emax s x y :
  has_sign s x = true -> pos_finite y = true ->
  has_sign s (SFmul prec emax x y) = true.
Proof.
  destruct x as [sx|sx| |sx mx ex], y as [sy|sy| |[] my ey];
    try discriminate; simpl; intros Hs _; destruct s, sx;
    try discriminate; try reflexivity;
    apply binary_round_aux_has_sign; lia.
Qed.

Lemma SFdiv_has_sign prec emax s x y :
  has_sign s x = true -> pos_finite y = true ->
  has_sign s (SFdiv prec emax x y) = true.
Proof.
  destruct x as [sx|sx| |sx mx ex], y as [sy|sy| |[] my ey];
    try discriminate; simpl; intros Hs _;
    try (destruct s, sx; try discriminate; reflexivity).
  pose proof (SFdiv_core_nonneg prec emax mx ex my ey) as H.
  destruct (SFdiv_core_binary prec emax (Z.pos mx) ex (Z.pos my) ey) as [[mz ez] lz].
  destruct s, sx; try discriminate; apply binary_round_aux_has_sign, H.
Qed.

Lemma has_sign_nonneg x : has_sign false x = true -> nonneg x = true.
Proof. destruct x as [[]|[]| |[] m e]; simpl; auto. Qed.

Lemma has_sign_nonpos x : has_sign true x = true -> nonpos x = true.
Proof. destruct x as [[]|[]| |[] m e]; simpl; auto. Qed.

Lemma SFmul_nonpos prec emax x y :
  nonpos x = true -> pos_finite y = true ->
  nonpos (SFmul prec emax x y) = true.
Proof.
  destruct x as [sx|[]| |[] mx ex], y as [sy|sy| |[] my ey];
    try discriminate; simpl; auto.
  intros _ _. apply has_sign_nonpos, binary_round_aux_has_sign. lia.
Qed.

Lemma SFdiv_nonpos prec emax x y :
  nonpos x = true -> pos_finite y = true ->
  nonpos (SFdiv prec emax x y) = true.
Proof.
  intros Hx Hy. destruct x as [sx|sx| |sx mx ex].
  - destruct y as [sy|sy| |[] my ey]; try discriminate; reflexivity.
  - simpl in Hx. subst sx. apply has_sign_nonpos, SFdiv_has_sign; auto.
  - discriminate.
  - simpl in Hx. subst sx. apply has_sign_nonpos, SFdiv_has_sign; auto.
Qed.

Lemma binary_round_sign_clear prec emax m e :
  sign_clear (binary_round prec emax false m e) = true.
Proof.
  unfold binary_round. destruct (shl_align m e _) as [mz ez].
  apply binary_round_aux_sign_clear. lia.
Qed.

(** The sum of a non-negative float and a positive finite one. *)
Lemma SFadd_nonneg prec emax x y :
  nonneg x = true -> pos_finite y = true ->
  nonneg (SFadd prec emax x y) = true.
Proof.
  destruct x as [sx|sx| |sx mx ex], y as [sy|sy| |[] my ey];
    try discriminate; simpl; auto.
  destruct sx; try discriminate. intros _ _.
  apply sign_clear_nonneg, binary_round_sign_clear.
Qed.

(** The product of two finite non-negative floats. *)
Lemma SFmul_nonneg_finite prec emax x y :
  nonneg x = true -> nonneg y = true ->
  (match x with S754_infinity _ => false | _ => true end) = true ->
  (match y with S754_infinity _ => false | _ => true end) = true ->
  nonneg (SFmul prec emax x y) = true.
Proof.
  destruct x as [sx|sx| |[] mx ex], y as [sy|sy| |[] my ey];
    try discriminate; simpl; auto.
  intros _ _ _ _. apply sign_clear_nonneg, binary_round_aux_sign_clear. lia.
Qed.

(** On primitive floats. *)
Lemma leb_zero_r x : (x <=? 0) = nonpos (Prim2SF x).
Proof.
  rewrite leb_spec, Prim2SF_zero.
  destruct (Prim2SF x) as [[]|[]| |[] m e]; reflexivity.
Qed.

Lemma pos_finite_spec x :
  (0 <? x) && (x <? infinity) = pos_finite (Prim2SF x).
Proof.
  rewrite !ltb_spec, Prim2SF_zero.
  change (Prim2SF infinity) with (S754_infinity false).
  destruct (Prim2SF x) as [[]|[]| |[] m e]; reflexivity.
Qed.

Lemma mul_nonpos x c :
  (x <=? 0) = true -> pos_finite (Prim2SF c) = true -> (x * c <=? 0) = true.
Proof. rewrite !leb_zero_r, mul_spec. apply SFmul_nonpos. Qed.

Lemma div_nonpos x c :
  (x <=? 0) = true -> pos_finite (Prim2SF c) = true -> (x / c <=? 0) = true.
Proof. rewrite !leb_zero_r, div_spec. apply SFdiv_nonpos. Qed.

Lemma add_nonneg x c :
  (0 <=? x) = true -> pos_finite (Prim2SF c) = true -> (0 <=? x + c) = true.
Proof. rewrite !leb_zero, add_spec. apply SFadd_nonneg. Qed.

Lemma mul_nonneg_finite x y :
  (0 <=? x) = true -> (0 <=? y) = true ->
  is_finite x = true -> is_finite y = true -> (0 <=? x * y) = true.
Proof.
  rewrite !leb_zero, !is_finite_spec, mul_spec. intros Hx Hy Fx Fy.
  apply SFmul_nonneg_finite; auto;
    [destruct (Prim2SF x)|destruct (Prim2SF y)]; auto.
Qed.

End SignFacts.

(** Zeros and NaN through the operations. *)
Module ZeroFacts.
Import FloatFacts SignFacts.

(** A float equal to zero is one of the two zeros. *)
Lemma eqb_zero_spec q :
  (q =? 0) = true <-> exists s, Prim2SF q = S754_zero s.
Proof.
  rewrite FloatAxioms.eqb_spec, Prim2SF_zero.
  destruct (Prim2SF q) as [s|[]| |[] m e]; split;
    try discriminate; eauto; intros [s' [=]].
Qed.

(** A zero times a positive finite float is a zero. *)
Lemma mul_zero q c :
  (q =? 0) = true -> pos_finite (Prim2SF c) = true -> (q * c =? 0) = true.
Proof.
  rewrite !eqb_zero_spec, mul_spec. intros [s ->] Hc.
  destruct (Prim2SF c) as [sc|sc| |[] mc ec]; try discriminate.
  simpl. eauto.
Qed.

(** Adding a zero of either sign to a float whose sign bit is clear. *)
Lemma add_zero x z :
  sign_clear (Prim2SF x) = true -> (z =? 0) = true -> x + z = x.
Proof.
  rewrite eqb_zero_spec. intros Hx [s Hz].
  apply Prim2SF_inj. rewrite add_spec, Hz.
  destruct (Prim2SF x) as [[]|[]| |[] m e]; try discriminate;
    destruct s; reflexivity.
Qed.

(** The product of two positive finite floats has a clear sign bit. *)
Lemma mul_sign_clear x y :
  pos_finite (Prim2SF x) = true -> pos_finite (Prim2SF y) = true ->
  sign_clear (Prim2SF (x * y)) = true.
Proof.
  rewrite mul_spec.
  destruct (Prim2SF x) as [sx|sx| |[] mx ex], (Prim2SF y) as [sy|sy| |[] my ey];
    try discriminate.
  intros _ _. apply binary_round_aux_sign_clear. lia.
Qed.

(** A float above a non-negative one is not zero. *)
Lemma above_nonneg_not_zero x y :
  (0 <=? x) = true -> (x <? y) = true -> (y =? 0) = false.
Proof.
  rewrite leb_zero, ltb_spec, FloatAxioms.eqb_spec, Prim2SF_zero.
  destruct (Prim2SF x) as [[]|[]| |[] ? ?], (Prim2SF y) as [[]|[]| |[] ? ?];
    try discriminate; auto.
Qed.

(** A positive finite float is not zero. *)
Lemma pos_finite_not_zero x :
  pos_finite (Prim2SF x) = true -> (x =? 0) = false.
Proof.
  rewrite FloatAxioms.eqb_spec, Prim2SF_zero.
  destruct (Prim2SF x) as [[]|[]| |[] ? ?]; try discriminate; auto.
Qed.

(** NaN goes through every arithmetic operation. *)
Lemma mul_nan_l y : nan * y = nan.
Proof. apply Prim2SF_inj. rewrite mul_spec. reflexivity. Qed.

Lemma mul_nan_r x : x * nan = nan.
Proof.
  apply Prim2SF_inj. rewrite mul_spec.
  change (Prim2SF nan) with S754_nan. destruct (Prim2SF x); reflexivity.
Qed.

Lemma div_nan_l y : nan / y = nan.
Proof. apply Prim2SF_inj. rewrite div_spec. reflexivity. Qed.

Lemma sub_nan_l y : nan - y = nan.
Proof. apply Prim2SF_inj. rewrite sub_spec. reflexivity. Qed.

End ZeroFacts.

(** * Reading fixed-point notation back *)
Module ReadFacts.

Lemma digits_value_app acc s t :
  digits_value acc (s ++ t) = digits_value (digits_value acc s) t.
Proof.
  revert acc; induction s as [|c s IH]; intros acc; simpl; [reflexivity|].
  destruct (Ascii.eqb c "."); apply IH.
Qed.

Lemma digits_value_of_uint_acc d acc :
  digits_value (Z.pos acc) (NilEmpty.string_of_uint d)
  = Z.pos (Pos.of_uint_acc d acc).
Proof.
  revert acc; induction d; intros acc; simpl; try reflexivity;
    rewrite <- IHd; f_equal;
    match goal with
    | |- context [Z.of_nat (nat_of_ascii ?c)] =>
        let v := eval vm_compute in (Z.of_nat (nat_of_ascii c)) in
        change (Z.of_nat (nat_of_ascii c)) with v
    end; lia.
Qed.

Lemma digits_value_of_uint d :
  digits_value 0 (NilEmpty.string_of_uint d) = Z.of_N (Pos.of_uint d).
Proof.
  induction d; simpl; try reflexivity; try exact IHd;
    apply digits_value_of_uint_acc.
Qed.

Lemma digits_value_to_uint n :
  digits_value 0 (NilZero.string_of_uint (N.to_uint n)) = Z.of_N n.
Proof.
  rewrite <- (DecimalN.Unsigned.of_to n) at 2.
  unfold N.of_uint.
  destruct (N.to_uint n) eqn:E; try apply digits_value_of_uint.
  reflexivity.
Qed.

Lemma digit_value k :
  (0 <= k < 10)%Z -> (Z.of_nat (nat_of_ascii (PyFloat.digit k)) - 48 = k)%Z
  /\ Ascii.eqb (PyFloat.digit k) "." = false.
Proof.
  intros H. unfold PyFloat.digit.
  assert (Hk : (Z.to_nat k < 10)%nat) by lia.
  rewrite <- (Z2Nat.id k) at 2 by lia.
  revert Hk. generalize (Z.to_nat k) as n. intros n Hn.
  do 10 (destruct n as [|n]; [split; reflexivity|]). lia.
Qed.

(** Reading back what [fixed3] writes. *)
Lemma read_fixed3 s n :
  (0 <= n)%Z -> read_thousandths (PyFloat.fixed3 s n) = (s, n).
Proof.
  intros Hn. unfold PyFloat.fixed3.
  set (ds := NilZero.string_of_uint _).
  assert (V : forall acc d1 d2 d3,
             (0 <= d1 < 10)%Z -> (0 <= d2 < 10)%Z -> (0 <= d3 < 10)%Z ->
             digits_value acc
               ("." ++ String (PyFloat.digit d1)
                  (String (PyFloat.digit d2) (String (PyFloat.digit d3) "")))
             = (1000 * acc + 100 * d1 + 10 * d2 + d3)%Z).
  { intros acc d1 d2 d3 H1 H2 H3.
    destruct (digit_value d1 H1) as [V1 P1], (digit_value d2 H2) as [V2 P2],
      (digit_value d3 H3) as [V3 P3].
    lazymatch goal with
    | |- context [("." ++ ?t)%string] =>
        change ("." ++ t)%string with (String "." t)
    end.
    cbn [digits_value].
    change (Ascii.eqb "." ".") with true. cbv iota.
    rewrite P1, V1, P2, V2, P3, V3. lia. }

  assert (R : digits_value 0
                (ds ++ "." ++ String (PyFloat.digit ((n / 100) mod 10))
                   (String (PyFloat.digit ((n / 10) mod 10))
                      (String (PyFloat.digit (n mod 10)) ""))) = n).
  { rewrite digits_value_app. subst ds. rewrite digits_value_to_uint.
    rewrite V by (apply Z.mod_pos_bound; lia).
    rewrite Z2N.id by (apply Z.div_pos; lia).
    Z.div_mod_to_equations. lia. }

  destruct s.
  - change ((true, digits_value 0
               (ds ++ "." ++ String (PyFloat.digit ((n / 100) mod 10))
                  (String (PyFloat.digit ((n / 10) mod 10))
                     (String (PyFloat.digit (n mod 10)) "")))) = (true, n)).
    rewrite R. reflexivity.
  - destruct (FormatFacts.digits_of_uint (N.to_uint (Z.to_N (n / 1000))))
      as [Hds Hne]. fold ds in Hds, Hne.
    destruct ds as [|c ds']; [congruence|].
    simpl in Hds. apply andb_prop in Hds as [Hc _].
    destruct c as [[] [] [] [] [] [] [] []]; try discriminate Hc;
      lazymatch type of R with
      | digits_value 0 ?t = _ =>
          change ((false, digits_value 0 t) = (false, n))
      end; rewrite R; reflexivity.
Qed.

(** Rounding to the nearest integer is off by at most one half. *)
Lemma round_half_even_near num den :
  (0 < den)%Z ->
  (Z.abs (2 * (PyFloat.round_half_even num den * den - num)) <= den)%Z.
Proof.
  intros Hd. unfold PyFloat.round_half_even.
  pose proof (Z.div_mod num den ltac:(lia)) as E.
  pose proof (Z.mod_pos_bound num den Hd) as B.
  set (q := (num / den)%Z) in *. set (r := (num mod den)%Z) in *.
  destruct (Z.compare_spec (2 * r) den); [destruct (Z.even q)| |]; nia.
Qed.
End ReadFacts.

(** * Further facts about the program *)

Lemma prefix_append (p r : string) : String.prefix p (p ++ r) = true.
Proof.
  induction p as [|c p IH]; simpl; [destruct r; reflexivity|].
  destruct (ascii_dec c c); [exact IH|congruence].
Qed.

Lemma prefix_cancel (a b c : string) :
  String.prefix (a ++ b) (a ++ c) = String.prefix b c.
Proof.
  induction a as [|x a IH]; simpl; [reflexivity|].
  destruct (ascii_dec x x); [exact IH|congruence].
Qed.

(** The summary of a Running or Swimming record, by its duration. *)
Lemma Running_summary (self : Running) :
  show_training_info self
  = if duration (Running_fields self) =? 0 then Raises ZeroDivisionError
    else
      let speed := get_distance self / duration (Running_fields self) in
      Returns (new_InfoMessage "Running" (duration (Running_fields self))
                 (get_distance self) speed
                 (spec_Running_calories speed (weight (Running_fields self))
                    (duration (Running_fields self)))).
Proof.
  destruct self as [[a d w]]. unfold show_training_info. simpl.
  unfold Running_get_spent_calories, Training_get_mean_speed,
    PyFloat.truediv. simpl.
  destruct (d =? 0); reflexivity.
Qed.

Lemma Swimming_summary (self : Swimming) :
  show_training_info self
  = if duration (Swimming_fields self) =? 0 then Raises ZeroDivisionError
    else
      let speed :=
        spec_Swimming_speed (length_pool self) (count_pool self)
          (duration (Swimming_fields self)) in
      Returns (new_InfoMessage "Swimming" (duration (Swimming_fields self))
                 (get_distance self) speed
                 (spec_Swimming_calories speed
                    (weight (Swimming_fields self)))).
Proof.
  destruct self as [[a d w] l c]. unfold show_training_info. simpl.
  unfold Swimming_get_spent_calories, Swimming_get_mean_speed,
    PyFloat.truediv. simpl.
  destruct (d =? 0); reflexivity.
Qed.

(** * Further properties of the program *)

(** An instance of the base class has no summary: [show_training_info]
    raises ZeroDivisionError for a zero duration, from the mean speed, which
    is computed first, and NotImplementedError otherwise. *)
Theorem base_class_has_no_summary (self : Training) :
  show_training_info self
  = Raises (if duration self =? 0 then ZeroDivisionError
            else NotImplementedError "Method is implemented in children").
Proof.
  destruct self as [a d w]. unfold show_training_info. simpl.
  unfold Training_get_mean_speed, PyFloat.truediv. simpl.
  destruct (d =? 0); reflexivity.
Qed.

(** The text [format(x, '.3f')] of a finite float, read back as a decimal, has
    the float's sign and denotes its absolute value [m * 2^e] rounded to a
    whole number [n] of thousandths: exactly [1000 * m * 2^e] when that is an
    integer, and within one half of it otherwise. *)
Theorem format_3f_round_trip (x : float) :
  match Prim2SF x with
  | S754_zero s => read_thousandths (PyFloat.format_3f x) = (s, 0%Z)
  | S754_finite s m e =>
      exists n,
        read_thousandths (PyFloat.format_3f x) = (s, n)
        /\ (if (0 <=? e)%Z then n = (1000 * (Z.pos m * 2 ^ e))%Z
            else (Z.abs (2 * (n * 2 ^ (- e) - 1000 * Z.pos m)) <= 2 ^ (- e))%Z)
  | _ => PyFloat.format_3f x = "nan" \/ PyFloat.format_3f x = "inf"
         \/ PyFloat.format_3f x = "-inf"
  end.
Proof.
  unfold PyFloat.format_3f.
  destruct (Prim2SF x) as [s|[]| |s m e]; auto.
  - apply ReadFacts.read_fixed3. lia.
  - exists (PyFloat.thousandths m e).
    split; [apply ReadFacts.read_fixed3, FormatFacts.thousandths_nonneg|].
    unfold PyFloat.thousandths. destruct (0 <=? e)%Z eqn:He; [lia|].
    apply Z.leb_gt in He.
    replace (1000 * Z.pos m)%Z with (Z.pos m * 1000)%Z by lia.
    apply ReadFacts.round_half_even_near, Z.pow_pos_nonneg; lia.
Qed.

Section Further.
Variable libm_pow : float -> float -> float.
Import FloatFacts SignFacts ZeroFacts.

(** The summary of a SportsWalking record raises ZeroDivisionError or
    OverflowError, or has the record's duration. *)
Lemma SportsWalking_summary (self : SportsWalking) :
  match show_training_info (H := SportsWalking_class libm_pow) self with
  | Returns info =>
      training_type info = "SportsWalking"
      /\ msg_duration info = duration (SportsWalking_fields self)
      /\ (duration (SportsWalking_fields self) =? 0) = false
      /\ (height self =? 0) = false
  | Raises ZeroDivisionError =>
      (duration (SportsWalking_fields self) =? 0) = true
      \/ (height self =? 0) = true
  | Raises OverflowError => True
  | Raises _ => False
  end.
Proof.
  destruct self as [[a d w] h]. unfold show_training_info. simpl.
  unfold SportsWalking_get_spent_calories, Training_get_mean_speed,
    PyFloat.truediv. simpl.
  destruct (d =? 0) eqn:Hd; simpl; [auto|].
  unfold PyFloat.pow2, PyFloat.floordiv.
  repeat match goal with
         | |- context [if ?b then _ else _] => destruct b eqn:?
         end; simpl; auto.
Qed.

(** When the squared mean speed is below the height, as for every walker of
    ordinary speed and height, the floor division vanishes and the calories of
    a SportsWalking record are [0.035 * weight * duration * 60], whatever the
    speed and the height, for a positive finite weight. *)
Theorem walking_calories_without_speed (self : SportsWalking) (square : float) :
  let base := SportsWalking_fields self in
  (duration base =? 0) = false ->
  PyFloat.pow2 libm_pow (action base * 0.65 / 1000 / duration base)
  = Returns square ->
  (0 <=? square) = true -> (square <? height self) = true ->
  (0 <? weight base) && (weight base <? infinity) = true ->
  SportsWalking_get_spent_calories libm_pow self
  = Returns (0.035 * weight base * duration base * 60).
Proof.
  destruct self as [[a d w] h]. simpl. intros Hd Hp H0 Hh Hw.
  rewrite pos_finite_spec in Hw.
  unfold SportsWalking_get_spent_calories, Training_get_mean_speed,
    Training_get_distance, Training_LEN_STEP, M_IN_KM. simpl.
  rewrite (truediv_returns _ _ Hd). cbn [mbind result_bind].
  rewrite Hp. cbn [mbind result_bind].
  unfold PyFloat.floordiv. rewrite (above_nonneg_not_zero _ _ H0 Hh).
  cbn [mbind result_bind].
  pose proof (PyFloatFacts.floor_quotient_small _ _ H0 Hh) as Hq.
  unfold SW_COEF_CALORIE_1, SW_COEF_CALORIE_2, H_IN_MIN.
  rewrite add_zero; [reflexivity| |].
  - apply mul_sign_clear; [reflexivity|exact Hw].
  - apply mul_zero; [|exact Hw]. apply mul_zero; [exact Hq|reflexivity].
Qed.

(** Running's calories are not clamped: for a positive finite weight and
    duration they have the sign of [18 * speed - 20], so they are not positive
    when that difference is not. *)
Theorem running_calories_sign (self : Running) :
  let base := Running_fields self in
  let speed := action base * 0.65 / 1000 / duration base in
  (0 <? weight base) && (weight base <? infinity) = true ->
  (0 <? duration base) && (duration base <? infinity) = true ->
  exists calories,
    Running_get_spent_calories self = Returns calories
    /\ ((0 <=? 18 * speed - 20) = true -> (0 <=? calories) = true)
    /\ ((18 * speed - 20 <=? 0) = true -> (calories <=? 0) = true).
Proof.
  destruct self as [[a d w]]. simpl. rewrite !pos_finite_spec. intros Hw Hd.
  unfold Running_get_spent_calories, Training_get_mean_speed,
    Training_get_distance, Training_LEN_STEP, M_IN_KM, RUN_COEF_CALORIE_1,
    RUN_COEF_CALORIE_2, H_IN_MIN. simpl.
  rewrite (truediv_returns _ _ (pos_finite_not_zero d Hd)).
  cbn [mbind result_bind]. eexists. split; [reflexivity|]. split; intros H.
  - apply mul_nonneg; [|reflexivity]. apply mul_nonneg; [|exact Hd].
    apply div_nonneg; [|reflexivity]. apply mul_nonneg; [exact H|exact Hw].
  - apply mul_nonpos; [|reflexivity]. apply mul_nonpos; [|exact Hd].
    apply div_nonpos; [|reflexivity]. apply mul_nonpos; [exact H|exact Hw].
Qed.

(** For a positive finite duration the inherited mean speed is returned and
    has the sign of the action count: not negative for a non-negative count,
    and, like the distance, not positive for a non-positive count. *)
Theorem mean_speed_sign (self : Training) :
  (0 <? duration self) && (duration self <? infinity) = true ->
  exists speed,
    Training_get_mean_speed Training_LEN_STEP self = Returns speed
    /\ ((0 <=? action self) = true -> (0 <=? speed) = true)
    /\ ((action self <=? 0) = true ->
        (Training_get_distance Training_LEN_STEP self <=? 0) = true
        /\ (speed <=? 0) = true).
Proof.
  destruct self as [a d w]. simpl. rewrite pos_finite_spec. intros Hd.
  unfold Training_get_mean_speed, Training_get_distance, Training_LEN_STEP,
    M_IN_KM. simpl.
  rewrite (truediv_returns _ _ (pos_finite_not_zero d Hd)).
  eexists. split; [reflexivity|]. split; intros H.
  - apply div_nonneg; [|exact Hd]. apply div_nonneg; [|reflexivity].
    apply mul_nonneg; [exact H|reflexivity].
  - assert (Hdist : (a * 0.65 / 1000 <=? 0) = true).
    { apply div_nonpos; [|reflexivity]. apply mul_nonpos; [exact H|reflexivity]. }
    split; [exact Hdist|]. apply div_nonpos; [exact Hdist|exact Hd].
Qed.

(** For a finite non-negative pool length and lap count and a positive finite
    duration and weight, Swimming's mean speed and calories are returned and
    are not negative. *)
Theorem swimming_calories_nonnegative (self : Swimming) :
  let base := Swimming_fields self in
  (0 <=? length_pool self) = true -> is_finite (length_pool self) = true ->
  (0 <=? count_pool self) = true -> is_finite (count_pool self) = true ->
  (0 <? duration base) && (duration base <? infinity) = true ->
  (0 <? weight base) && (weight base <? infinity) = true ->
  exists speed calories,
    Swimming_get_mean_speed self = Returns speed
    /\ (0 <=? speed) = true
    /\ Swimming_get_spent_calories self = Returns calories
    /\ (0 <=? calories) = true.
Proof.
  destruct self as [[a d w] l c]. simpl. rewrite !pos_finite_spec.
  intros Hl Fl Hc Fc Hd Hw.
  unfold Swimming_get_spent_calories, Swimming_get_mean_speed, M_IN_KM,
    SWIM_COEF_CALORIE_1, SWIM_COEF_CALORIE_2. simpl.
  rewrite (truediv_returns _ _ (pos_finite_not_zero d Hd)).
  cbn [mbind result_bind].
  assert (Hs : (0 <=? l * c / 1000 / d) = true).
  { apply div_nonneg; [|exact Hd]. apply div_nonneg; [|reflexivity].
    apply mul_nonneg_finite; assumption. }
  do 2 eexists. repeat split; [exact Hs|].
  apply mul_nonneg; [|exact Hw]. apply mul_nonneg; [|reflexivity].
  apply add_nonneg; [exact Hs|reflexivity].
Qed.

(** A NaN action count is not rejected: for a non-zero duration the summary of
    the Running record is built, with NaN as its distance, mean speed and
    calories. *)
Theorem running_nan_action (duration weight : float) :
  (duration =? 0) = false ->
  show_training_info (new_Running (new_Training nan duration weight))
  = Returns (new_InfoMessage "Running" duration nan nan nan).
Proof.
  intros Hd. unfold show_training_info. simpl.
  unfold Running_get_spent_calories, Training_get_mean_speed,
    Training_get_distance, Training_LEN_STEP, M_IN_KM, RUN_COEF_CALORIE_1,
    RUN_COEF_CALORIE_2, H_IN_MIN. simpl.
  rewrite (truediv_returns _ _ Hd). cbn [mbind result_bind].
  unfold get_distance, Training_get_distance, M_IN_KM. simpl.
  unfold Training_LEN_STEP.
  repeat rewrite ?mul_nan_l, ?div_nan_l, ?mul_nan_r, ?sub_nan_l.
  reflexivity.
Qed.

(** A record [read_package] returns is written back to its package. *)
Lemma read_package_returns (code : string) (data : list float) (w : workout) :
  read_package code data = Returns w -> package_of w = (code, data).
Proof.
  unfold read_package. rewrite training_dict_lookup.
  destruct (String.eqb_spec code "SWM") as [->|_].
  { destruct data as [|a [|b [|c [|d [|e [|f data]]]]]]; simpl;
      intros [= <-]; reflexivity. }
  destruct (String.eqb_spec code "RUN") as [->|_].
  { destruct data as [|a [|b [|c [|d data]]]]; simpl;
      intros [= <-]; reflexivity. }
  destruct (String.eqb_spec code "WLK") as [->|_].
  { destruct data as [|a [|b [|c [|d [|e data]]]]]; simpl;
      intros [= <-]; reflexivity. }
  discriminate.
Qed.

(** [read_package] raises KeyError for an unknown code and TypeError for a
    recognized one. *)
Lemma read_package_raises (code : string) (data : list float) (e : exception) :
  read_package code data = Raises e ->
  (expected_arity code = None /\ e = KeyError (unknown_kind_message code))
  \/ (exists n, expected_arity code = Some n /\ length data <> n
                /\ e = TypeError).
Proof.
  destruct (expected_arity code) as [n|] eqn:E.
  - pose proof (read_package_recognized code n data E) as R.
    destruct (Nat.eqb_spec (length data) n) as [Hn|Hn].
    + destruct R as [w R]. congruence.
    + rewrite R. intros [= <-]. right. eauto.
  - rewrite (read_package_unknown _ _ E). intros [= <-]. auto.
Qed.

(** [main] raises ZeroDivisionError, for a zero duration or a walker's zero
    height, or a walker's OverflowError. *)
Lemma main_raises (w : workout) (e : exception) :
  main libm_pow w = Raises e ->
  (e = ZeroDivisionError
   /\ ((duration (workout_fields w) =? 0) = true
       \/ exists self, w = a_SportsWalking self /\ (height self =? 0) = true))
  \/ (e = OverflowError /\ exists self, w = a_SportsWalking self).
Proof.
  unfold main. destruct w as [self|self|self];
    unfold workout_show_training_info, workout_fields.
  - rewrite Swimming_summary. destruct (_ =? 0) eqn:Hd;
      cbn [mbind result_bind]; intros [= <-]. auto.
  - rewrite Running_summary. destruct (_ =? 0) eqn:Hd;
      cbn [mbind result_bind]; intros [= <-]. auto.
  - pose proof (SportsWalking_summary self) as S.
    destruct (show_training_info self) as [info|e']; cbn [mbind result_bind];
      intros [= He]. rewrite He in S.
    destruct e; try contradiction; [left|right]; (split; [reflexivity|]);
      [destruct S; eauto|eauto].
Qed.

(** The line [main] returns starts with the record's class and duration,
    which is not zero. *)
Lemma main_returns (w : workout) (line : string) :
  main libm_pow w = Returns line ->
  (duration (workout_fields w) =? 0) = false
  /\ exists name,
      class_name_of (fst (package_of w)) = Some name
      /\ String.prefix
           ("Тип тренировки: " ++ name ++ "; Длительность: "
            ++ PyFloat.format_3f (duration (workout_fields w)) ++ " ч.; ")
           line = true.
Proof.
  assert (P : forall name d rest,
             String.prefix
               ("Тип тренировки: " ++ name ++ "; Длительность: "
                ++ PyFloat.format_3f d ++ " ч.; ")
               ("Тип тренировки: " ++ name ++ "; Длительность: "
                ++ PyFloat.format_3f d ++ " ч.; " ++ rest) = true).
  { intros name d rest. rewrite !prefix_cancel. apply prefix_append. }
  unfold main. destruct w as [self|self|self];
    unfold workout_show_training_info, workout_fields, package_of, fst.
  - rewrite Swimming_summary. destruct (_ =? 0) eqn:Hd;
      cbn [mbind result_bind]; intros [= <-].
    split; [reflexivity|]. exists "Swimming". split; [reflexivity|apply P].
  - rewrite Running_summary. destruct (_ =? 0) eqn:Hd;
      cbn [mbind result_bind]; intros [= <-].
    split; [reflexivity|]. exists "Running". split; [reflexivity|apply P].
  - pose proof (SportsWalking_summary self) as S.
    destruct (show_training_info self) as [info|e']; cbn [mbind result_bind];
      intros [= <-]. destruct S as (Hn & Hd & Hd0 & _).
    split; [exact Hd0|]. exists "SportsWalking". split; [reflexivity|].
    unfold get_message. rewrite Hn, Hd. apply P.
Qed.

(** The duration of a record is the second value of its package. *)
Lemma package_duration (w : workout) :
  nth 1 (snd (package_of w)) 0 = duration (workout_fields w).
Proof. destruct w; reflexivity. Qed.

(** [read_package] loses nothing: it returns a record exactly for the package
    the record is written back to, its class's code with its attributes in
    the order of [__init__]. *)
Theorem read_package_round_trip (code : string) (data : list float)
  (w : workout) :
  read_package code data = Returns w <-> package_of w = (code, data).
Proof.
  split; [apply read_package_returns|].
  destruct w as [[[a d w] l c]|[[a d w]]|[[a d w] h]]; simpl;
    intros [= <- <-]; reflexivity.
Qed.

(** The exceptions of reading a package and printing its line: KeyError for an
    unknown code, TypeError for a wrong number of values, ZeroDivisionError
    for a zero duration or, for "WLK", a zero height, OverflowError for "WLK"
    only, and never NotImplementedError. *)
Theorem process_raises (code : string) (data : list float) (e : exception) :
  process libm_pow code data = Raises e ->
  match e with
  | KeyError msg =>
      ~ In code recognized_codes /\ msg = unknown_kind_message code
  | TypeError =>
      exists n, expected_arity code = Some n /\ length data <> n
  | ZeroDivisionError =>
      expected_arity code = Some (length data)
      /\ ((nth 1 data 0 =? 0) = true
          \/ (code = "WLK" /\ (nth 3 data 0 =? 0) = true))
  | OverflowError =>
      code = "WLK" /\ expected_arity code = Some (length data)
  | NotImplementedError _ => False
  end.
Proof.
  unfold process.
  destruct (read_package code data) as [w|e'] eqn:R; cbn [mbind result_bind].
  - intros M. pose proof (read_package_returns _ _ _ R) as Pk.
    pose proof (package_duration w) as Hd. rewrite Pk in Hd. simpl in Hd.
    assert (A : expected_arity code = Some (length data)).
    { destruct w as [self|self|self]; simpl in Pk; injection Pk as <- <-;
        reflexivity. }
    destruct (main_raises w e M) as [[-> Z]|[-> [self ->]]].
    + split; [exact A|]. destruct Z as [Z|(self & -> & Z)].
      * left. rewrite Hd. exact Z.
      * right. simpl in Pk. injection Pk as <- <-. auto.
    + simpl in Pk. injection Pk as <- _. auto.
  - intros [= <-].
    destruct (read_package_raises _ _ _ R) as [[E ->]|(n & E & Hn & ->)].
    + split; [|reflexivity]. rewrite recognized_codes_spec, E. auto.
    + eauto.
Qed.

(** A line is printed only for a recognized code with the right number of
    values and a non-zero duration; it starts with the name of the class the
    code selects and the second value of the payload as the duration. *)
Theorem process_line (code : string) (data : list float) (line : string) :
  process libm_pow code data = Returns line ->
  exists name,
    class_name_of code = Some name
    /\ expected_arity code = Some (length data)
    /\ (nth 1 data 0 =? 0) = false
    /\ String.prefix
         ("Тип тренировки: " ++ name ++ "; Длительность: "
          ++ PyFloat.format_3f (nth 1 data 0) ++ " ч.; ") line = true.
Proof.
  unfold process.
  destruct (read_package code data) as [w|e] eqn:R; cbn [mbind result_bind];
    [|discriminate].
  intros M. pose proof (read_package_returns _ _ _ R) as Pk.
  pose proof (package_duration w) as Hd. rewrite Pk in Hd. simpl in Hd.
  destruct (main_returns w line M) as (Hd0 & name & Hn & Hp).
  rewrite Pk in Hn. simpl in Hn. rewrite <- Hd in Hd0, Hp.
  exists name. repeat split; try assumption.
  destruct w as [self|self|self]; simpl in Pk; injection Pk as <- <-;
    reflexivity.
Qed.

(** For the codes "RUN" and "SWM" a line is printed exactly when the payload
    has the right number of values and its duration is not zero, whatever the
    other values. *)
Theorem process_prints_RUN_SWM (code : string) (data : list float) :
  code = "RUN" \/ code = "SWM" ->
  (exists line, process libm_pow code data = Returns line)
  <-> expected_arity code = Some (length data)
      /\ (nth 1 data 0 =? 0) = false.
Proof.
  intros Hc. unfold process. split.
  - intros [line H].
    destruct (read_package code data) as [w|e] eqn:R;
      cbn [mbind result_bind] in H; [|discriminate].
    pose proof (read_package_returns _ _ _ R) as Pk.
    pose proof (package_duration w) as Hd. rewrite Pk in Hd. simpl in Hd.
    destruct (main_returns w line H) as (Hd0 & _).
    rewrite <- Hd in Hd0. split; [|exact Hd0].
    destruct w as [self|self|self]; simpl in Pk; injection Pk as <- <-;
      reflexivity.
  - intros [E Hd].
    pose proof (read_package_recognized code _ data E) as R.
    rewrite Nat.eqb_refl in R. destruct R as [w R]. rewrite R.
    cbn [mbind result_bind].
    pose proof (read_package_returns _ _ _ R) as Pk. unfold main.
    destruct w as [self|self|self]; simpl in Pk; injection Pk as <- Hdata;
      subst data; simpl in Hd; unfold workout_show_training_info.
    + rewrite Swimming_summary, Hd. cbn [mbind result_bind]. eauto.
    + rewrite Running_summary, Hd. cbn [mbind result_bind]. eauto.
    + destruct Hc; discriminate.
Qed.

(** For the code "WLK" a line is printed exactly when the payload has four
    values, its duration and its height are not zero and the square of the
    mean speed is in range. *)
Theorem process_prints_WLK (data : list float) :
  (exists line, process libm_pow "WLK" data = Returns line)
  <-> length data = 4%nat
      /\ (nth 1 data 0 =? 0) = false
      /\ (nth 3 data 0 =? 0) = false
      /\ exists square,
          PyFloat.pow2 libm_pow (nth 0 data 0 * 0.65 / 1000 / nth 1 data 0)
          = Returns square.
Proof.
  unfold process. split.
  - intros [line H].
    destruct (read_package "WLK" data) as [w|e] eqn:R;
      cbn [mbind result_bind] in H; [|discriminate].
    apply read_package_returns in R.
    destruct w as [self|self|[[a d w] h]]; simpl in R; try discriminate.
    injection R as <-. split; [reflexivity|]. simpl nth.
    revert H. unfold main, workout_show_training_info, show_training_info.
    simpl. unfold SportsWalking_get_spent_calories, Training_get_mean_speed,
      Training_get_distance, Training_LEN_STEP, M_IN_KM, PyFloat.truediv.
    simpl. destruct (d =? 0); cbn [mbind result_bind]; [discriminate|].
    destruct (PyFloat.pow2 libm_pow (a * 0.65 / 1000 / d)) as [square|e];
      cbn [mbind result_bind]; [|discriminate].
    unfold PyFloat.floordiv. destruct (h =? 0); cbn [mbind result_bind];
      [discriminate|]. eauto.
  - intros (Hn & Hd & Hh & square & Hp).
    destruct data as [|a [|d [|w [|h [|x data]]]]]; try discriminate.
    simpl in Hd, Hh, Hp.
    change (read_package "WLK" [a; d; w; h])
      with (Returns (a_SportsWalking
                       (new_SportsWalking (new_Training a d w) h))).
    cbn [mbind result_bind].
    unfold main, workout_show_training_info, show_training_info.
    simpl. unfold SportsWalking_get_spent_calories, Training_get_mean_speed,
      Training_get_distance, Training_LEN_STEP, M_IN_KM, PyFloat.truediv.
    simpl. rewrite Hd. cbn [mbind result_bind]. rewrite Hp.
    cbn [mbind result_bind]. unfold PyFloat.floordiv. rewrite Hh.
    cbn [mbind result_bind]. eauto.
Qed.

(** The script over two lists of packages in a row: the second list is run
    only if the first raised nothing, and its lines follow the first's. *)
Theorem script_app (ps qs : list (string * list float)) :
  script libm_pow (ps ++ qs)
  = match script libm_pow ps with
    | (lines, Some e) => (lines, Some e)
    | (lines, None) =>
        let (more, raised) := script libm_pow qs in ((lines ++ more)%list, raised)
    end.
Proof.
  induction ps as [|[code data] ps IH]; simpl.
  - destruct (script libm_pow qs); reflexivity.
  - destruct (process libm_pow code data) as [line|e]; [|reflexivity].
    rewrite IH. destruct (script libm_pow ps) as [lines [e|]].
    + reflexivity.
    + destruct (script libm_pow qs); reflexivity.
Qed.

(** The script prints the lines of the packages before the first one that
    raises, in order, and ends with that package's exception; with no
    exception it prints one line for each package. *)
Theorem script_lines (ps : list (string * list float)) :
  let (lines, raised) := script libm_pow ps in
  Forall2 (fun p line => process libm_pow (fst p) (snd p) = Returns line)
    (firstn (length lines) ps) lines
  /\ match raised with
     | None => length lines = length ps
     | Some e =>
         exists code data,
           nth_error ps (length lines) = Some (code, data)
           /\ process libm_pow code data = Raises e
     end.
Proof.
  induction ps as [|[code data] ps IH]; simpl.
  - split; [constructor|reflexivity].
  - destruct (process libm_pow code data) as [line|e] eqn:P.
    + destruct (script libm_pow ps) as [lines raised]. destruct IH as [IH1 IH2].
      simpl. split; [constructor; [exact P|exact IH1]|].
      destruct raised; [exact IH2|]. simpl. congruence.
    + simpl. split; [constructor|]. eauto.
Qed.

(** The script never ends with NotImplementedError, whatever its packages. *)
Theorem script_never_not_implemented (ps : list (string * list float))
  (msg : string) :
  snd (script libm_pow ps) <> Some (NotImplementedError msg).
Proof.
  induction ps as [|[code data] ps IH]; simpl; [discriminate|].
  destruct (process libm_pow code data) as [line|e] eqn:P.
  - destruct (script libm_pow ps) as [lines raised]. exact IH.
  - simpl. intros [= ->]. unfold process in P.
    destruct (read_package code data) as [w|e] eqn:R;
      cbn [mbind result_bind] in P.
    + destruct (main_raises _ _ P) as [[? _]|[? _]]; discriminate.
    + injection P as ->.
      destruct (read_package_raises _ _ _ R) as [[_ ?]|(n & _ & _ & ?)];
        discriminate.
Qed.

(** The program: with a C library accurate to one unit in the last place, the
    script over the packages of the source prints these three lines and
    raises nothing. *)
Theorem script_packages :
  pow2_faithful libm_pow 5.85 ->
  script libm_pow packages
  = (["Тип тренировки: Swimming; Длительность: 1.000 ч.; Дистанция: 0.994 км; Ср. скорость: 1.000 км/ч; Потрачено ккал: 336.000.";
      "Тип тренировки: Running; Длительность: 1.000 ч.; Дистанция: 9.750 км; Ср. скорость: 9.750 км/ч; Потрачено ккал: 699.750.";
      "Тип тренировки: SportsWalking; Длительность: 1.000 ч.; Дистанция: 5.850 км; Ср. скорость: 5.850 км/ч; Потрачено ккал: 157.500."],
     None).
Proof.
  intros H.
  assert (W : process libm_pow "WLK" [9000; 1; 75; 180]
              = Returns "Тип тренировки: SportsWalking; Длительность: 1.000 ч.; Дистанция: 5.850 км; Ср. скорость: 5.850 км/ч; Потрачено ккал: 157.500.").
  { unfold process.
    change (read_package "WLK" [9000; 1; 75; 180])
      with (Returns (a_SportsWalking walking_sample)).
    cbn [mbind result_bind]. unfold main, workout_show_training_info.
    rewrite (proj2 (walking_sample_info libm_pow H)). reflexivity. }
  unfold packages, script.
  change (process libm_pow "SWM" [720; 1; 80; 25; 40])
    with (Returns "Тип тренировки: Swimming; Длительность: 1.000 ч.; Дистанция: 0.994 км; Ср. скорость: 1.000 км/ч; Потрачено ккал: 336.000.").
  change (process libm_pow "RUN" [15000; 1; 75])
    with (Returns "Тип тренировки: Running; Длительность: 1.000 ч.; Дистанция: 9.750 км; Ср. скорость: 9.750 км/ч; Потрачено ккал: 699.750.").
  rewrite W. reflexivity.
Qed.
End Further.

(** * Instances of the further properties *)

(** The walking sample: its squared speed, 34.2225, is below its height. *)
Lemma walking_calories_without_speed_witness :
  PyFloat.pow2 rounded_square (9000 * 0.65 / 1000 / 1)
  = Returns 34.222499999999997
  /\ SportsWalking_get_spent_calories rounded_square walking_sample
     = Returns (0.035 * 75 * 1 * 60).
Proof.
  split; [reflexivity|].
  apply (walking_calories_without_speed rounded_square walking_sample
           34.222499999999997); reflexivity.
Defined.

(** An hour without a step at 75 kg: [18 * 0 - 20] is negative, and so are
    the calories. *)
Lemma running_calories_sign_witness :
  (18 * (0 * 0.65 / 1000 / 1) - 20 <=? 0) = true
  /\ exists calories,
      Running_get_spent_calories (new_Running (new_Training 0 1 75))
      = Returns calories
      /\ (calories <=? 0) = true.
Proof.
  split; [reflexivity|].
  destruct (running_calories_sign (new_Running (new_Training 0 1 75))
              eq_refl eq_refl) as (calories & H & _ & Hneg).
  exists calories. split; [exact H|]. apply Hneg. reflexivity.
Defined.

(** The mean speed of the running sample. *)
Lemma mean_speed_sign_witness :
  (0 <? 1) && (1 <? infinity) = true
  /\ exists speed,
      Training_get_mean_speed Training_LEN_STEP (new_Training 15000 1 75)
      = Returns speed
      /\ (0 <=? speed) = true.
Proof.
  split; [reflexivity|].
  destruct (mean_speed_sign (new_Training 15000 1 75) eq_refl)
    as (speed & H & Hpos & _).
  exists speed. split; [exact H|]. apply Hpos. reflexivity.
Defined.

(** The swimming sample. *)
Lemma swimming_calories_nonnegative_witness :
  is_finite 25 = true /\ is_finite 40 = true
  /\ exists speed calories,
      Swimming_get_mean_speed swimming_sample = Returns speed
      /\ (0 <=? speed) = true
      /\ Swimming_get_spent_calories swimming_sample = Returns calories
      /\ (0 <=? calories) = true.
Proof.
  split; [reflexivity|]. split; [reflexivity|].
  apply (swimming_calories_nonnegative swimming_sample); reflexivity.
Defined.

(** A NaN action count over one hour. *)
Lemma running_nan_action_witness :
  (1 =? 0) = false
  /\ show_training_info (new_Running (new_Training nan 1 75))
     = Returns (new_InfoMessage "Running" 1 nan nan nan).
Proof.
  split; [reflexivity|]. apply running_nan_action. reflexivity.
Defined.

(** The Running package of the source and its record. *)
Lemma read_package_round_trip_witness :
  package_of (a_Running running_sample) = ("RUN", [15000; 1; 75])
  /\ read_package "RUN" [15000; 1; 75] = Returns (a_Running running_sample).
Proof.
  split; [reflexivity|].
  apply (proj2 (read_package_round_trip "RUN" [15000; 1; 75]
                  (a_Running running_sample))).
  reflexivity.
Defined.

(** A Running package of duration zero. *)
Lemma process_raises_witness :
  process rounded_square "RUN" [15000; 0; 75] = Raises ZeroDivisionError
  /\ expected_arity "RUN" = Some (length [15000; 0; 75]).
Proof.
  assert (H : process rounded_square "RUN" [15000; 0; 75]
              = Raises ZeroDivisionError) by reflexivity.
  split; [exact H|].
  exact (proj1 (process_raises rounded_square "RUN" [15000; 0; 75]
                  ZeroDivisionError H)).
Defined.

(** The Running package of the source. *)
Lemma process_line_witness :
  process rounded_square "RUN" [15000; 1; 75]
  = Returns
      "Тип тренировки: Running; Длительность: 1.000 ч.; Дистанция: 9.750 км; Ср. скорость: 9.750 км/ч; Потрачено ккал: 699.750."
  /\ exists name,
      class_name_of "RUN" = Some name
      /\ expected_arity "RUN" = Some 3%nat.
Proof.
  assert (H : process rounded_square "RUN" [15000; 1; 75]
              = Returns
                  "Тип тренировки: Running; Длительность: 1.000 ч.; Дистанция: 9.750 км; Ср. скорость: 9.750 км/ч; Потрачено ккал: 699.750.")
    by reflexivity.
  split; [exact H|].
  destruct (process_line rounded_square _ _ _ H) as (name & Hn & Ha & _).
  exists name. split; [exact Hn|exact Ha].
Defined.

(** The Swimming package of the source. *)
Lemma process_prints_RUN_SWM_witness :
  ("SWM" = "RUN" \/ "SWM" = "SWM")
  /\ exists line,
      process rounded_square "SWM" [720; 1; 80; 25; 40] = Returns line.
Proof.
  split; [right; reflexivity|].
  apply (proj2 (process_prints_RUN_SWM rounded_square "SWM"
                  [720; 1; 80; 25; 40] (or_intror eq_refl))).
  split; reflexivity.
Defined.

(** The SportsWalking package of the source. *)
Lemma process_prints_WLK_witness :
  exists line,
    process rounded_square "WLK" [9000; 1; 75; 180] = Returns line.
Proof.
  apply (proj2 (process_prints_WLK rounded_square [9000; 1; 75; 180])).
  repeat split. exists 34.222499999999997. reflexivity.
Defined.

(** The program with a correctly rounded square. *)
Lemma script_packages_witness :
  pow2_faithful rounded_square 5.85
  /\ snd (script rounded_square packages) = None.
Proof.
  assert (H : pow2_faithful rounded_square 5.85) by (right; left; reflexivity).
  split; [exact H|]. rewrite (script_packages rounded_square H). reflexivity.
Defined.
